(** * mcp_bash_server: tool resolver and operation dispatcher

    A shallow embedding of [src/mcp_bash_server.py].  Python strings are
    modelled as [string] (a sequence of bytes), dictionaries as [gmap],
    [pathlib.Path] values by the string [str(path)], and every call that
    leaves the process (filesystem probes, subprocesses, HTTP requests) is
    answered by an oracle of a [world] and logged in a trace of events. *)

From Stdlib Require Import Ascii String ZArith.
From stdpp Require Import base option list strings gmap pretty.

Open Scope string_scope.

(** ** Python string primitives *)

Module Py.

Definition nl : string := String "010"%char "".

(** [str.lower()] on the ASCII range.  Bytes above 127 are left alone; no
    character outside ASCII lower-cases to a letter used by a registry key. *)
Definition lower_ascii (c : ascii) : ascii :=
  let n := N_of_ascii c in
  if ((65 <=? n) && (n <=? 90))%N then ascii_of_N (n + 32) else c.

Fixpoint lower (s : string) : string :=
  match s with
  | "" => ""
  | String c s' => String (lower_ascii c) (lower s')
  end.

(** [sub in s] for strings: substring test. *)
Fixpoint contains (sub s : string) : bool :=
  String.prefix sub s ||
  match s with
  | "" => false
  | String _ s' => contains sub s'
  end.

(** [str.isspace()] on the ASCII range. *)
Definition isspace (c : ascii) : bool :=
  let n := N_of_ascii c in
  (((9 <=? n) && (n <=? 13)) || ((28 <=? n) && (n <=? 32)))%N.

(** [s.split()]: maximal runs of non-whitespace characters. *)
Fixpoint split_go (cur : option string) (s : string) : list string :=
  match s with
  | "" => option_list (String.rev <$> cur)
  | String c s' =>
      if isspace c
      then option_list (String.rev <$> cur) ++ split_go None s'
      else split_go (Some (String c (default "" cur))) s'
  end.

Definition split (s : string) : list string := split_go None s.

(** [s.replace(a, b)] for one-character [a] and [b]. *)
Fixpoint replace (a b : ascii) (s : string) : string :=
  match s with
  | "" => ""
  | String c s' => String (if Ascii.eqb c a then b else c) (replace a b s')
  end.

Fixpoint lstrip (s : string) : string :=
  match s with
  | "" => ""
  | String c s' => if isspace c then lstrip s' else s
  end.

(** [s.strip()] *)
Definition strip (s : string) : string :=
  String.rev (lstrip (String.rev (lstrip s))).

(** [sep.join(parts)] *)
Fixpoint join (sep : string) (parts : list string) : string :=
  match parts with
  | [] => ""
  | [p] => p
  | p :: ps => p +:+ sep +:+ join sep ps
  end.

(** [c * n] for a string [c] *)
Fixpoint repeat (c : string) (n : nat) : string :=
  match n with
  | O => ""
  | S n' => c +:+ repeat c n'
  end.

(** Values found in an argument bag ([Dict[str, Any]] decoded from JSON).
    [VOther] stands for floats, lists and dictionaries, of which the code
    observes only the type name, [str()] and the truth value. *)
Inductive value :=
| VNone
| VBool (b : bool)
| VInt (n : Z)
| VStr (s : string)
| VOther (type_name shown : string) (truth : bool).

(** [bool(v)] *)
Definition truthy (v : value) : bool :=
  match v with
  | VNone => false
  | VBool b => b
  | VInt n => negb (n =? 0)%Z
  | VStr s => negb (String.eqb s "")
  | VOther _ _ t => t
  end.

(** [str(v)], as used by f-strings *)
Definition str (v : value) : string :=
  match v with
  | VNone => "None"
  | VBool true => "True"
  | VBool false => "False"
  | VInt n => pretty n
  | VStr s => s
  | VOther _ shown _ => shown
  end.

(** [type(v).__name__] *)
Definition type_name (v : value) : string :=
  match v with
  | VNone => "NoneType"
  | VBool _ => "bool"
  | VInt _ => "int"
  | VStr _ => "str"
  | VOther t _ _ => t
  end.

(** Exceptions derived from [Exception]; [exn_msg] is [str(e)]. *)
Inductive exn_class :=
| AttributeError | TypeError | ValueError | OSError | PermissionError
| ProcessLookupError | RuntimeError | TimeoutExpired | OtherException.

Record exn := Exn { exn_cls : exn_class; exn_msg : string }.

End Py.

Import Py.

(** What a call gives back: a value, or the exception it raised. *)
Inductive result (A : Type) :=
| Ok (a : A)
| Raise (e : exn).
Arguments Ok {A} a.
Arguments Raise {A} e.

(** ** Paths and the filesystem *)

(** [parent / child] of [pathlib]: an absolute child replaces the parent,
    and the root is not followed by a second separator.  Removal of
    redundant separators and of [.] components is not modelled. *)
Definition pjoin (parent child : string) : string :=
  if String.eqb child "" then parent
  else if String.prefix "/" child then child
  else if String.eqb parent "/" then parent +:+ child
  else parent +:+ "/" +:+ child.

Infix "</>" := pjoin (at level 40, left associativity).

Record fsnode := FsNode { is_dir : bool; x_ok : bool }.

(** What [os.stat] answers for a path: the node found there; nothing
    (ENOENT, ENOTDIR, EBADF or ELOOP, the errors [pathlib] reads as "not
    there", or a path that cannot be encoded); or any other [OSError], such
    as EACCES below a directory that may not be searched and ENAMETOOLONG. *)
Inductive stat_result :=
| Node (n : fsnode)
| NoEntry
| StatError (e : exn).

(** A filesystem snapshot. *)
Definition filesystem := string → stat_result.

Definition fs_exists (fs : filesystem) (p : string) : bool :=
  match fs p with Node _ => true | _ => false end.

Definition fs_access_x (fs : filesystem) (p : string) : bool :=
  match fs p with Node n => x_ok n | _ => false end.


(** The error with which [os.stat] fails, when it is not "not there". *)
Definition fs_error (fs : filesystem) (p : string) : option exn :=
  match fs p with StatError e => Some e | _ => None end.

(** [Path(p).exists()]: [pathlib] (up to Python 3.13) answers [False] for
    the four errors above and raises every other [OSError] again. *)
Definition path_exists (fs : filesystem) (p : string) : result bool :=
  match fs p with
  | Node _ => Ok true
  | NoEntry => Ok false
  | StatError e => Raise e
  end.

(** [Path(p).is_dir()], which treats the errors of [os.stat] as [exists]
    does. *)
Definition path_is_dir (fs : filesystem) (p : string) : result bool :=
  match fs p with
  | Node n => Ok (is_dir n)
  | NoEntry => Ok false
  | StatError e => Raise e
  end.

(** ** The world outside the server, and the trace of calls made to it *)

(** How [asyncio.wait_for(process.communicate(), timeout)] ends. *)
Inductive comm_outcome :=
| Completed (stdout stderr : string) (returncode : Z) (fs_after : filesystem)
    (** the child exited in time; the streams are already decoded with
        [errors="replace"]; [fs_after] is the filesystem it left behind *)
| TimedOut (partial_stdout partial_stderr : string)
    (** [asyncio.TimeoutError]; the child had written this much *)
| CommError (e : exn).

Record process := Process {
  pid : nat;
  communicate : value → comm_outcome;  (* by the timeout passed to wait_for *)
  kill : option exn
    (* what process.kill() raises after a wait that timed out:
       ProcessLookupError when the child has ended by then *)
}.

Inductive spawn_outcome :=
| SpawnFailed (e : exn)
| Spawned (p : process).

(** What [json.loads] returned: a dictionary, of which the code reads
    [str(data.get('model', 'unknown'))], or any other document. *)
Inductive json_doc :=
| JsonDict (model : string)
| JsonOther.

Record world := World {
  home : string;                                   (* str(Path.home()) *)
  environ : gmap string string;                    (* os.environ at import *)
  fs : filesystem;
  expand_resolve : string → exn + string;          (* str(Path(s).expanduser().resolve()) *)
  create_subprocess_shell :
    string → option string → gmap string string → spawn_outcome;
  run_which : string → exn + (Z * string);         (* returncode, stdout *)
  urlopen : string → exn + string;                 (* response.read().decode() *)
  json_loads : string → exn + json_doc
}.

Inductive event :=
| EvExists (p : string)                            (* Path.exists *)
| EvAccess (p : string)                            (* os.access(p, os.X_OK) *)
| EvIsDir (p : string)                             (* Path.is_dir *)
| EvResolve (s : string)                           (* Path.expanduser().resolve() *)
| EvSpawn (cmd : string) (cwd : option string) (env : gmap string string)
| EvCommunicate (pid : nat) (timeout : value) (ended : comm_outcome)
                                                   (* wait_for(communicate(), timeout) and how it ended *)
| EvKill (pid : nat)
| EvWait (pid : nat)
| EvWhich (name : string) (env : gmap string string)   (* subprocess.run(["which", name], env=env) *)
| EvUrlopen (url : string)
| EvSleep (seconds : Z).

(** ** Computations: a trace of events and a value or a raised exception *)

Definition M (A : Type) : Type := list event * result A.

Definition ret {A} (a : A) : M A := ([], Ok a).
Definition raise {A} (e : exn) : M A := ([], Raise e).
Definition emit (ev : event) : M unit := ([ev], Ok tt).

(** The answer of an oracle, as a computation that logs nothing. *)
Definition answer {A} (r : result A) : M A := ([], r).

Definition bind {A B} (m : M A) (k : A → M B) : M B :=
  match m with
  | (t, Ok a) => let '(t', r) := k a in ((t ++ t')%list, r)
  | (t, Raise e) => (t, Raise e)
  end.

(** [try: m  except Exception as e: h e] *)
Definition try_except {A} (m : M A) (h : exn → M A) : M A :=
  match m with
  | (t, Raise e) => let '(t', r) := h e in ((t ++ t')%list, r)
  | (t, Ok a) => (t, Ok a)
  end.

Notation "x <- m ;; k" := (bind m (fun x => k))
  (at level 100, m at next level, right associativity).
Notation "m ;;; k" := (bind m (fun _ => k))
  (at level 100, right associativity).

Definition trace_of {A} (m : M A) : list event := fst m.
Definition outcome_of {A} (m : M A) : result A := snd m.

Record TextContent := mkTextContent { type : string; text : string }.

Definition text_result (s : string) : M (list TextContent) :=
  ret [ {| type := "text"; text := s |} ].

(** ** The tool registry and its resolver *)

Record tool_config := ToolConfig {
  cfg_dir : string;
  cfg_command : string;
  cfg_description : string
}.

(** The dictionary returned by [find_tool_executable]. *)
Record tool_info := ToolInfo {
  command : string;
  cwd : string;
  description : string
}.

Section Server.

Variable w : world.

Definition TOOLS_DIR : string := home w </> "tools".
Definition WEB3SE_LAB_DIR : string := TOOLS_DIR </> "web3se-lab".

Definition DEFAULT_ENV : gmap string string :=
  <["WEB3_SEKIT_API" := default "http://localhost:8081" (environ w !! "WEB3_SEKIT_API")]>
  (<["SMARTBERT_API" := default "http://localhost:9900" (environ w !! "SMARTBERT_API")]>
  (<["PATH" := TOOLS_DIR +:+ ":" +:+ WEB3SE_LAB_DIR +:+ ":"
               +:+ default "" (environ w !! "PATH")]> (environ w))).

Definition tool_configs : gmap string tool_config :=
  list_to_map [
    ("slither", ToolConfig (TOOLS_DIR </> "slither")
                  "python3 slither/slither.py" "Slither static analyzer");
    ("mythril", ToolConfig (TOOLS_DIR </> "mythril2.0")
                  "python3 mythril/mythril" "Mythril security analyzer");
    ("echidna", ToolConfig (TOOLS_DIR </> "echidna")
                  "echidna-test" "Echidna fuzzing tool");
    ("securify2", ToolConfig (TOOLS_DIR </> "securify2")
                  "python3 -m securify" "Securify2 static analyzer");
    ("securify", ToolConfig (TOOLS_DIR </> "securify2")
                  "python3 -m securify" "Securify2 static analyzer");
    ("medusa", ToolConfig (TOOLS_DIR </> "medusa")
                  "python3 -m medusa" "Medusa fuzzing tool");
    ("fuzz-utils", ToolConfig (TOOLS_DIR </> "fuzz-utils")
                  "python3 -m fuzz_utils" "Fuzz utilities");
    ("solc-select", ToolConfig (TOOLS_DIR </> "solc-select")
                  "solc-select" "Solidity compiler version selector")
  ].

Definition probe_exists (f : filesystem) (p : string) : M bool :=
  emit (EvExists p) ;;; answer (path_exists f p).

(** [os.access(p, os.X_OK)] raises for no error of the system call. *)
Definition probe_access (f : filesystem) (p : string) : M bool :=
  emit (EvAccess p) ;;; ret (fs_access_x f p).

Definition probe_is_dir (f : filesystem) (p : string) : M bool :=
  emit (EvIsDir p) ;;; answer (path_is_dir f p).

(** [for path in paths: if path.exists() and os.access(path, os.X_OK): return path] *)
Fixpoint first_executable (paths : list string) : M (option string) :=
  match paths with
  | [] => ret None
  | p :: rest =>
      e <- probe_exists (fs w) p ;;
      if e then
        a <- probe_access (fs w) p ;;
        if a then ret (Some p) else first_executable rest
      else first_executable rest
  end.

Definition find_tool_executable (tool_name : string) : M (option tool_info) :=
  let tool_name_lower := lower tool_name in
  match tool_configs !! tool_name_lower with
  | None => ret None
  | Some config =>
      let tool_dir := cfg_dir config in
      d <- probe_exists (fs w) tool_dir ;;
      if negb d then ret None else
      let possible_paths :=
        [ tool_dir </> tool_name;
          tool_dir </> tool_name_lower;
          tool_dir </> "bin" </> tool_name;
          tool_dir </> "bin" </> tool_name_lower ] in
      let from_template :=
        Some {| command := cfg_command config;
                cwd := tool_dir;
                description := cfg_description config |} in
      let direct_executables :=
        found <- first_executable possible_paths ;;
        match found with
        | Some path =>
            ret (Some {| command := path;
                         cwd := tool_dir;
                         description := cfg_description config |})
        | None => ret from_template
        end in
      if contains "python3" (cfg_command config) then
        match tail (split (cfg_command config)) with
        | part0 :: _ =>
            let module_path := tool_dir </> replace "." "/" part0 in
            e <- probe_exists (fs w) module_path ;;
            ok <- (if e then ret true
                   else probe_exists (fs w) (module_path </> "__init__.py")) ;;
            if ok then ret from_template else direct_executables
        | [] => direct_executables
        end
      else direct_executables
  end.

(** ** The operation dispatcher *)

(** [arguments.get(key, dflt)] *)
Definition arg_get (arguments : gmap string value) (key : string)
    (dflt : value) : value :=
  default dflt (arguments !! key).

(** [Path(v).expanduser().resolve()] *)
Definition path_resolve (v : value) : M string :=
  match v with
  | VStr s =>
      emit (EvResolve s) ;;;
      match expand_resolve w s with
      | inl e => raise e
      | inr p => ret p
      end
  | _ => raise (Exn TypeError
           ("expected str, bytes or os.PathLike object, not " +:+ type_name v))
  end.

(** [v.lower()] *)
Definition value_lower (v : value) : M string :=
  match v with
  | VStr s => ret (lower s)
  | _ => raise (Exn AttributeError
           ("'" +:+ type_name v +:+ "' object has no attribute 'lower'"))
  end.

(** The per-call [PATH] overlay:
    [if tools_path not in current_path: env["PATH"] = ...] *)
Definition with_tools_path (env0 : gmap string string) : gmap string string :=
  let env := env0 in
  let tools_path := TOOLS_DIR in
  let current_path := default "" (env !! "PATH") in
  if negb (contains tools_path current_path)
  then <["PATH" := tools_path +:+ ":" +:+ current_path]> env
  else env.

Definition prepare_env : gmap string string := with_tools_path DEFAULT_ENV.

(** [asyncio.create_subprocess_shell(cmd, ..., cwd=cwd, env=env)] *)
Definition spawn (cmd : value) (dir : option string)
    (env : gmap string string) : M process :=
  match cmd with
  | VStr c =>
      emit (EvSpawn c dir env) ;;;
      match create_subprocess_shell w c dir env with
      | SpawnFailed e => raise e
      | Spawned p => ret p
      end
  | _ => raise (Exn ValueError "cmd must be a string")
  end.

(** [await asyncio.wait_for(process.communicate(), timeout)]; [None] stands
    for [asyncio.TimeoutError], which every caller handles at once. *)
Definition wait_for_communicate (p : process) (timeout : value)
    : M (option (string * string * Z * filesystem)) :=
  emit (EvCommunicate (pid p) timeout (communicate p timeout)) ;;;
  match communicate p timeout with
  | Completed out err rc f => ret (Some (out, err, rc, f))
  | TimedOut _ _ => ret None
  | CommError e => raise e
  end.

(** [process.kill(); await process.wait()]: when [kill()] raises, the
    wait is not reached. *)
Definition kill_and_reap (p : process) : M unit :=
  emit (EvKill (pid p)) ;;;
  match kill p with
  | Some e => raise e
  | None => emit (EvWait (pid p))
  end.

Definition format_streams (output error_output : string) : string :=
  (if truthy (VStr output) then "STDOUT:" +:+ nl +:+ output +:+ nl else "")
  +:+ (if truthy (VStr error_output)
       then "STDERR:" +:+ nl +:+ error_output +:+ nl else "").

Definition rule : string := Py.repeat "=" 50 +:+ nl.

Definition execute_command (arguments : gmap string value)
    : M (list TextContent) :=
  let command := arg_get arguments "command" (VStr "") in
  let working_dir := arg_get arguments "working_directory" (VStr ".") in
  let timeout := arg_get arguments "timeout" (VInt 300) in
  if negb (truthy command) then text_result "Error: No command provided"
  else
    try_except
      (work_dir <- path_resolve working_dir ;;
       e <- probe_exists (fs w) work_dir ;;
       if negb e then
         text_result ("Error: Working directory does not exist: " +:+ work_dir)
       else
         let env := prepare_env in
         process <- spawn command (Some work_dir) env ;;
         finished <- wait_for_communicate process timeout ;;
         match finished with
         | None =>
             kill_and_reap process ;;;
             text_result ("Error: Command timed out after " +:+ str timeout
                          +:+ " seconds" +:+ nl +:+ "Command: " +:+ str command)
         | Some (output, error_output, returncode, _) =>
             text_result ("Command: " +:+ str command +:+ nl
                          +:+ "Working Directory: " +:+ work_dir +:+ nl
                          +:+ "Exit Code: " +:+ str (VInt returncode) +:+ nl
                          +:+ rule
                          +:+ format_streams output error_output)
         end)
      (fun e =>
         text_result ("Error executing command: " +:+ exn_msg e +:+ nl
                      +:+ "Command: " +:+ str command)).

(** The directory heuristics at the end of [check_tool_available]. *)
Fixpoint search_tool_dirs (tool_name : string) (tool_dirs : list string)
    : M (option string) :=
  match tool_dirs with
  | [] => ret None
  | tool_dir :: rest =>
      e <- probe_exists (fs w) tool_dir ;;
      d <- (if e then probe_is_dir (fs w) tool_dir else ret false) ;;
      if d then
        found <- first_executable
                   [tool_dir </> tool_name; tool_dir </> "bin" </> tool_name] ;;
        match found with
        | Some possible_exec => ret (Some possible_exec)
        | None => search_tool_dirs tool_name rest
        end
      else search_tool_dirs tool_name rest
  end.

Definition check_tool_available (arguments : gmap string value)
    : M (list TextContent) :=
  let tool_name_v := arg_get arguments "tool_name" (VStr "") in
  if negb (truthy tool_name_v) then text_result "Error: No tool name provided"
  else
    try_except
      (match tool_name_v with
       | VStr tool_name =>
           emit (EvWhich tool_name DEFAULT_ENV) ;;;
           match run_which w tool_name with
           | inl e => raise e
           | inr (returncode, stdout) =>
               if (returncode =? 0)%Z then
                 text_result ("Tool '" +:+ tool_name +:+ "' is available at: "
                              +:+ strip stdout)
               else
                 tool_info <- find_tool_executable tool_name ;;
                 match tool_info with
                 | Some info =>
                     text_result
                       ("Tool '" +:+ tool_name +:+ "' found:" +:+ nl
                        +:+ "  " +:+ description info +:+ nl
                        +:+ "  Command: " +:+ command info +:+ nl
                        +:+ "  Directory: " +:+ cwd info +:+ nl
                        +:+ nl +:+ "Usage example:" +:+ nl
                        +:+ "  cd " +:+ cwd info +:+ " && " +:+ command info
                        +:+ " <args>")
                 | None =>
                     let tool_dirs :=
                       [ TOOLS_DIR </> tool_name;
                         TOOLS_DIR </> tool_name </> tool_name;
                         TOOLS_DIR </> (tool_name +:+ "2.0") </> tool_name;
                         WEB3SE_LAB_DIR </> tool_name ] in
                     found <- search_tool_dirs tool_name tool_dirs ;;
                     match found with
                     | Some possible_exec =>
                         text_result ("Tool '" +:+ tool_name
                                      +:+ "' found in ~/tools at: "
                                      +:+ possible_exec)
                     | None =>
                         text_result
                           ("Tool '" +:+ tool_name
                            +:+ "' not found in PATH or ~/tools." +:+ nl
                            +:+ "Available tools in ~/tools: echidna, fuzz-utils, medusa, mythril2.0, securify2, slither, solc-select")
                     end
                 end
           end
       | _ => raise (Exn TypeError
                ("expected str, bytes or os.PathLike object, not "
                 +:+ type_name tool_name_v))
       end)
      (fun e => text_result ("Error checking tool: " +:+ exn_msg e)).

Definition supported_tools : string :=
  "slither, mythril, echidna, securify2, medusa, fuzz-utils, solc-select".

(** The lookup of [run_security_tool], with its second try under the
    other spelling of securify. *)
Definition find_tool_or_alias (tool_name : string) : M (option tool_info) :=
  first <- find_tool_executable tool_name ;;
  match first with
  | Some info => ret (Some info)
  | None =>
      if String.eqb tool_name "securify"
      then find_tool_executable "securify2"
      else ret None
  end.

(** The [try] block of [run_security_tool], entered once the tool is found. *)
Definition launch_tool (tool_name : string) (tool_args working_dir timeout : value)
    (info : tool_info) : M (list TextContent) :=
  try_except
    (let full_command := strip (command info +:+ " " +:+ str tool_args) in
     work_dir <- path_resolve working_dir ;;
     tool_cwd <- path_resolve (VStr (cwd info)) ;;
     e <- probe_exists (fs w) tool_cwd ;;
     let exec_cwd := if e then tool_cwd else work_dir in
     let env := prepare_env in
     process <- spawn (VStr full_command) (Some exec_cwd) env ;;
     finished <- wait_for_communicate process timeout ;;
     match finished with
     | None =>
         kill_and_reap process ;;;
         text_result ("Error: Tool execution timed out after "
                      +:+ str timeout +:+ " seconds" +:+ nl
                      +:+ "Tool: " +:+ tool_name +:+ nl
                      +:+ "Command: " +:+ full_command)
     | Some (output, error_output, returncode, _) =>
         text_result ("Security Tool Execution: " +:+ tool_name +:+ nl
                      +:+ "Command: " +:+ full_command +:+ nl
                      +:+ "Working Directory: " +:+ exec_cwd +:+ nl
                      +:+ "Exit Code: " +:+ str (VInt returncode) +:+ nl
                      +:+ rule
                      +:+ format_streams output error_output)
     end)
    (fun e =>
       text_result ("Error running security tool: " +:+ exn_msg e +:+ nl
                    +:+ "Tool: " +:+ tool_name +:+ nl
                    +:+ "Arguments: " +:+ str tool_args)).

Definition run_security_tool (arguments : gmap string value)
    : M (list TextContent) :=
  tool_name <- value_lower (arg_get arguments "tool_name" (VStr "")) ;;
  let tool_args := arg_get arguments "arguments" (VStr "") in
  let working_dir := arg_get arguments "working_directory" (VStr ".") in
  let timeout := arg_get arguments "timeout" (VInt 300) in
  if negb (truthy (VStr tool_name)) then
    text_result ("Error: No tool name provided. Supported tools: "
                 +:+ supported_tools)
  else
    tool_info <- find_tool_or_alias tool_name ;;
    match tool_info with
    | None =>
        text_result ("Error: Tool '" +:+ tool_name +:+ "' not found." +:+ nl
                     +:+ "Supported tools: " +:+ supported_tools +:+ nl
                     +:+ "Use 'check_tool_available' to find how to run a specific tool.")
    | Some info => launch_tool tool_name tool_args working_dir timeout info
    end.

(** [" ".join(parts)]; a part that is not a string raises [TypeError]. *)
Fixpoint join_values (i : nat) (parts : list value) : M (list string) :=
  match parts with
  | [] => ret []
  | VStr s :: rest => ss <- join_values (S i) rest ;; ret (s :: ss)
  | v :: _ => raise (Exn TypeError
                ("sequence item " +:+ pretty i +:+ ": expected str instance, "
                 +:+ type_name v +:+ " found"))
  end.

(** [Path(v)] *)
Definition path_of (v : value) : M string :=
  match v with
  | VStr s => ret s
  | _ => raise (Exn TypeError
           ("expected str, bytes or os.PathLike object, not " +:+ type_name v))
  end.

Definition scan_cmd_parts (web3_scanner : string)
    (repo_path with_intent with_embed output_file : value) : list value :=
  ([VStr web3_scanner; VStr "scan"; repo_path]
   ++ (if truthy with_intent then [VStr "--intent"] else [])
   ++ (if truthy with_embed then [VStr "--embed"] else [])
   ++ (if truthy output_file then [VStr "--output"; output_file] else []))%list.

Definition web3_scanner_scan (arguments : gmap string value)
    : M (list TextContent) :=
  let repo_path := arg_get arguments "repository_path" (VStr "") in
  let with_intent := arg_get arguments "with_intent" (VBool true) in
  let with_embed := arg_get arguments "with_embed" (VBool true) in
  let output_file := arg_get arguments "output_file" (VStr "") in
  if negb (truthy repo_path) then
    text_result "Error: No repository path provided"
  else
    try_except
      (let web3_scanner := WEB3SE_LAB_DIR </> "web3-scanner" in
       e <- probe_exists (fs w) web3_scanner ;;
       if negb e then
         text_result ("Error: web3-scanner not found at " +:+ web3_scanner)
       else
         parts <- join_values 0
                    (scan_cmd_parts web3_scanner repo_path with_intent
                       with_embed output_file) ;;
         let command := join " " parts in
         process <- spawn (VStr command) (Some WEB3SE_LAB_DIR) DEFAULT_ENV ;;
         finished <- wait_for_communicate process (VInt 600) ;;
         match finished with
         | None =>
             kill_and_reap process ;;;
             text_result ("Error: Scan timed out after 10 minutes" +:+ nl
                          +:+ "Command: " +:+ command)
         | Some (output, error_output, returncode, fs_after) =>
             saved <- (if truthy output_file
                       then saved_path <- path_of output_file ;;
                            probe_exists fs_after saved_path
                       else ret false) ;;
             text_result ("Web3 Scanner Results:" +:+ nl
                          +:+ "Repository: " +:+ str repo_path +:+ nl
                          +:+ "Exit Code: " +:+ str (VInt returncode) +:+ nl
                          +:+ rule
                          +:+ format_streams output error_output
                          +:+ (if saved
                               then nl +:+ "✅ Results saved to: "
                                    +:+ str output_file +:+ nl
                               else ""))
         end)
      (fun e =>
         text_result ("Error running web3-scanner: " +:+ exn_msg e +:+ nl
                      +:+ "Repository: " +:+ str repo_path)).

Definition check_web3se_status : M (list TextContent) :=
  try_except
    (let smartbert_url :=
       default "http://localhost:9900" (DEFAULT_ENV !! "SMARTBERT_API") in
     smartbert <-
       try_except
         (emit (EvUrlopen smartbert_url) ;;;
          match urlopen w smartbert_url with
          | inl e => raise e
          | inr body =>
              match json_loads w body with
              | inl e => raise e
              | inr data =>
                  ret (("✅ SmartBERT API: Running at " +:+ smartbert_url)
                       :: match data with
                          | JsonDict model => ["   Model: " +:+ model]
                          | JsonOther => []
                          end)
              end
          end)
         (fun e =>
            ret ["❌ SmartBERT API: Not running at " +:+ smartbert_url;
                 "   Error: " +:+ exn_msg e]) ;;
     let web3sekit_url :=
       default "http://localhost:8081" (DEFAULT_ENV !! "WEB3_SEKIT_API") in
     web3sekit <-
       try_except
         (emit (EvUrlopen web3sekit_url) ;;;
          match urlopen w web3sekit_url with
          | inl e => raise e
          | inr _ => ret ["✅ web3-sekit API: Running at " +:+ web3sekit_url]
          end)
         (fun _ =>
            ret ["❌ web3-sekit API: Not running at " +:+ web3sekit_url]) ;;
     let web3_scanner := WEB3SE_LAB_DIR </> "web3-scanner" in
     e <- probe_exists (fs w) web3_scanner ;;
     let scanner :=
       if e then ["✅ web3-scanner CLI: Available at " +:+ web3_scanner]
       else ["❌ web3-scanner CLI: Not found at " +:+ web3_scanner] in
     let status_results := (smartbert ++ web3sekit ++ scanner)%list in
     text_result ("web3se-lab Service Status:" +:+ nl
                  +:+ join nl status_results))
    (fun e =>
       text_result ("Error checking web3se-lab status: " +:+ exn_msg e)).

Definition start_web3se_services (arguments : gmap string value)
    : M (list TextContent) :=
  let background := arg_get arguments "background" (VBool false) in
  try_except
    (let web3_scanner := WEB3SE_LAB_DIR </> "web3-scanner" in
     e <- probe_exists (fs w) web3_scanner ;;
     if negb e then
       text_result ("Error: web3-scanner not found at " +:+ web3_scanner)
     else if truthy background then
       process <- spawn (VStr ("cd " +:+ WEB3SE_LAB_DIR +:+ " && nohup "
                               +:+ web3_scanner
                               +:+ " start > /dev/null 2>&1 &"))
                    None DEFAULT_ENV ;;
       emit (EvWait (pid process)) ;;;
       emit (EvSleep 5) ;;;
       check_web3se_status
     else
       text_result ("To start web3se-lab services, run:" +:+ nl
                    +:+ "cd " +:+ WEB3SE_LAB_DIR +:+ " && ./web3-scanner start"
                    +:+ nl +:+ nl
                    +:+ "Or use: bash-server.execute_command with command: "
                    +:+ "'cd " +:+ WEB3SE_LAB_DIR +:+ " && ./web3-scanner start'"
                    +:+ nl +:+ nl
                    +:+ "Services will run on:" +:+ nl
                    +:+ "- SmartBERT API: http://localhost:9900" +:+ nl
                    +:+ "- web3-sekit API: http://localhost:8081"))
    (fun e => text_result ("Error starting services: " +:+ exn_msg e)).

Definition call_tool (name : string) (arguments : gmap string value)
    : M (list TextContent) :=
  if String.eqb name "execute_command" then execute_command arguments
  else if String.eqb name "check_tool_available" then check_tool_available arguments
  else if String.eqb name "run_security_tool" then run_security_tool arguments
  else if String.eqb name "web3_scanner_scan" then web3_scanner_scan arguments
  else if String.eqb name "start_web3se_services" then start_web3se_services arguments
  else if String.eqb name "check_web3se_status" then check_web3se_status
  else text_result ("Unknown tool: " +:+ name).

End Server.

(** ** The advertised tools *)

(** [mcp.types.Tool] and the JSON schema of its arguments: the properties in
    the order of the source, each with its type, description and default,
    and the list of required properties where the schema has one. *)
Module Mcp.

Record PropertySchema := mkProperty {
  prop_type : string;
  prop_description : string;
  prop_default : option value
}.

Record InputSchema := mkSchema {
  schema_type : string;
  properties : list (string * PropertySchema);
  required : option (list string)
}.

Record Tool := mkTool {
  name : string;
  description : string;
  inputSchema : InputSchema
}.

End Mcp.

Definition list_tools : list Mcp.Tool :=
  [ Mcp.mkTool "execute_command"
      "Execute a shell command and return the output. Use this to run tools like slither, mythril, echidna, securify2, medusa, fuzz-utils, solc-select, foundry, etc. from ~/tools. The server automatically finds tools in ~/tools subdirectories."
      (Mcp.mkSchema "object"
         [ ("command",
            Mcp.mkProperty "string"
              ("The shell command to execute. Examples:" +:+ nl
               +:+ "- 'slither .' or 'cd ~/tools/slither && python3 slither/slither.py .'" +:+ nl
               +:+ "- 'mythril analyze Contract.sol' or 'cd ~/tools/mythril2.0 && python3 mythril/mythril analyze Contract.sol'" +:+ nl
               +:+ "- 'echidna-test Contract.sol'" +:+ nl
               +:+ "- 'securify2 Contract.sol'" +:+ nl
               +:+ "- 'solc-select install 0.8.20'" +:+ nl
               +:+ "- 'forge test -vvv'")
              None);
           ("working_directory",
            Mcp.mkProperty "string"
              "Working directory for the command (default: current directory)"
              (Some (VStr ".")));
           ("timeout",
            Mcp.mkProperty "integer" "Timeout in seconds (default: 300)"
              (Some (VInt 300))) ]
         (Some ["command"]));
    Mcp.mkTool "run_security_tool"
      "Run a security tool from ~/tools with automatic discovery. Supports: slither, mythril, echidna, securify2, medusa, fuzz-utils, solc-select. Automatically finds the correct execution method."
      (Mcp.mkSchema "object"
         [ ("tool_name",
            Mcp.mkProperty "string"
              "Name of the tool: slither, mythril, echidna, securify2, medusa, fuzz-utils, or solc-select"
              None);
           ("arguments",
            Mcp.mkProperty "string"
              "Arguments to pass to the tool (e.g., '.', 'analyze Contract.sol', 'test Contract.sol')"
              None);
           ("working_directory",
            Mcp.mkProperty "string"
              "Working directory for the command (default: current directory)"
              (Some (VStr ".")));
           ("timeout",
            Mcp.mkProperty "integer" "Timeout in seconds (default: 300)"
              (Some (VInt 300))) ]
         (Some ["tool_name"; "arguments"]));
    Mcp.mkTool "check_tool_available"
      "Check if a tool is available in PATH or ~/tools"
      (Mcp.mkSchema "object"
         [ ("tool_name",
            Mcp.mkProperty "string"
              "Name of the tool to check (e.g., 'slither', 'forge', 'mythril')"
              None) ]
         (Some ["tool_name"]));
    Mcp.mkTool "web3_scanner_scan"
      "Scan a Web3 repository using web3se-lab scanner. Generates embeddings and detects malicious intents. Requires web3se-lab services to be running."
      (Mcp.mkSchema "object"
         [ ("repository_path",
            Mcp.mkProperty "string"
              "Path to repository or GitHub URL (e.g., './my-contracts' or 'https://github.com/user/repo')"
              None);
           ("with_intent",
            Mcp.mkProperty "boolean" "Detect malicious intents (default: true)"
              (Some (VBool true)));
           ("with_embed",
            Mcp.mkProperty "boolean" "Generate embeddings (default: true)"
              (Some (VBool true)));
           ("output_file",
            Mcp.mkProperty "string" "Output JSON file path (optional)" None) ]
         (Some ["repository_path"]));
    Mcp.mkTool "start_web3se_services"
      "Start web3se-lab services (SmartBERT API on port 9900 and web3-sekit API on port 8081). Returns status."
      (Mcp.mkSchema "object"
         [ ("background",
            Mcp.mkProperty "boolean" "Run in background (default: false)"
              (Some (VBool false))) ]
         None);
    Mcp.mkTool "check_web3se_status"
      "Check if web3se-lab services (SmartBERT and web3-sekit) are running"
      (Mcp.mkSchema "object" [] None) ].

(** ** Vocabulary for the properties of the resolver *)

Section ResolverVocabulary.

Variable w : world.

Definition runnable (p : string) : bool :=
  fs_exists (fs w) p && fs_access_x (fs w) p.

Definition candidates (config : tool_config) (tool_name : string) : list string :=
  [ cfg_dir config </> tool_name;
    cfg_dir config </> lower tool_name;
    cfg_dir config </> "bin" </> tool_name;
    cfg_dir config </> "bin" </> lower tool_name ].

(** The path the python3 branch looks for: the first word after [python3],
    with dots turned into separators, under the installation directory. *)
Definition probed_module_path (config : tool_config) : option string :=
  if contains "python3" (cfg_command config) then
    match tail (split (cfg_command config)) with
    | part0 :: _ => Some (cfg_dir config </> replace "." "/" part0)
    | [] => None
    end
  else None.

(** What the python3 branch finds: [module_path.exists() or
    (module_path / "__init__.py").exists()], where an entry has a path to
    look for. *)
Definition module_found (config : tool_config) : result bool :=
  match probed_module_path config with
  | Some module_path =>
      match path_exists (fs w) module_path with
      | Ok false => path_exists (fs w) (module_path </> "__init__.py")
      | found => found
      end
  | None => Ok false
  end.

(** The first of [paths] that exists and may be executed, the paths being
    looked at in order. *)
Fixpoint first_runnable (paths : list string) : result (option string) :=
  match paths with
  | [] => Ok None
  | p :: rest =>
      match path_exists (fs w) p with
      | Ok true => if fs_access_x (fs w) p then Ok (Some p)
                   else first_runnable rest
      | Ok false => first_runnable rest
      | Raise e => Raise e
      end
  end.

(** The paths below the installation directory that a lookup may ask
    [exists()] about. *)
Definition probed_paths (config : tool_config) (tool_name : string)
    : list string :=
  (match probed_module_path config with
   | Some module_path => [module_path; module_path </> "__init__.py"]
   | None => []
   end ++ candidates config tool_name)%list.

Definition template_info (config : tool_config) : tool_info :=
  {| command := cfg_command config;
     cwd := cfg_dir config;
     description := cfg_description config |}.

End ResolverVocabulary.

(** A computation that ends with a value: no exception leaves it. *)
Definition returns {A} (m : M A) : Prop := ∃ a, outcome_of m = Ok a.

(** The child processes a trace starts: command line, working directory
    and environment of each, in order. *)
Definition spawned (ev : event)
    : option (string * option string * gmap string string) :=
  match ev with
  | EvSpawn cmd dir env => Some (cmd, dir, env)
  | _ => None
  end.

Definition commands_started (t : list event)
    : list (string * option string * gmap string string) :=
  omap spawned t.

(** The scanner command line in the words of the specification:
    [<scanner-path> scan <repository_path>], then [--intent], [--embed] and
    [--output <output_file>] as asked for, separated by single spaces. *)
Definition spec_scan_command_line (scanner repository_path : string)
    (with_intent with_embed : bool) (output_file : string) : string :=
  scanner +:+ " scan " +:+ repository_path
  +:+ (if with_intent then " --intent" else "")
  +:+ (if with_embed then " --embed" else "")
  +:+ (if negb (String.eqb output_file "")
       then " --output " +:+ output_file else "").

(** The same machine with the server started from the environment [env]. *)
Definition with_environ (w : world) (env : gmap string string) : world :=
  {| home := home w;
     environ := env;
     fs := fs w;
     expand_resolve := expand_resolve w;
     create_subprocess_shell := create_subprocess_shell w;
     run_which := run_which w;
     urlopen := urlopen w;
     json_loads := json_loads w |}.

(** The entries of a [PATH] string, which are separated by colons. *)
Fixpoint path_entries_from (cur s : string) : list string :=
  match s with
  | "" => [String.rev cur]
  | String c s' =>
      if Ascii.eqb c ":" then String.rev cur :: path_entries_from "" s'
      else path_entries_from (String c cur) s'
  end.

Definition path_entries (path : string) : list string :=
  path_entries_from "" path.


(** Events that only look at the filesystem. *)
Definition probe_only (ev : event) : Prop :=
  match ev with
  | EvExists _ | EvAccess _ | EvIsDir _ => True
  | _ => False
  end.

(** The environment an event hands to a child process, if it starts one. *)
Definition uses_env (expected : gmap string string) (ev : event) : Prop :=
  match ev with
  | EvSpawn _ _ env | EvWhich _ env => env = expected
  | _ => True
  end.

(** What a computation returns, when it returns, has property [P]. *)
Definition returns_only {A} (P : A → Prop) (m : M A) : Prop :=
  ∀ a, outcome_of m = Ok a → P a.

(** A result made of one text block. *)
Definition single_text (r : list TextContent) : Prop :=
  ∃ s, r = [ {| type := "text"; text := s |} ].

(** A result made of one text block that does not begin with [U]. *)
Definition text_not_starting_with_U (r : list TextContent) : Prop :=
  ∃ c rest, r = [ {| type := "text"; text := String c rest |} ] ∧ c ≠ "U"%char.

(** An event that starts no shell child. *)
Definition no_child (ev : event) : Prop := spawned ev = None.

(** An event that is a filesystem probe or the [which] lookup. *)
Definition lookup_only (ev : event) : Prop :=
  match ev with
  | EvExists _ | EvAccess _ | EvIsDir _ | EvWhich _ _ => True
  | _ => False
  end.

(** ** Concrete worlds *)

Definition fs_of (entries : list (string * fsnode)) : filesystem :=
  fun p => match (list_to_map entries : gmap string fsnode) !! p with
           | Some node => Node node
           | None => NoEntry
           end.

Module Lab.

Definition directory : fsnode := FsNode true true.
Definition plain_file : fsnode := FsNode false false.
Definition program : fsnode := FsNode false true.

(** A checkout of the tools as their repositories lay them out: slither and
    medusa are Python packages inside a directory of the same name. *)
Definition disk : filesystem :=
  fs_of [ ("/home/auditor", directory);
          ("/home/auditor/tools", directory);
          ("/home/auditor/tools/slither", directory);
          ("/home/auditor/tools/slither/slither", directory);
          ("/home/auditor/tools/slither/slither/__init__.py", plain_file);
          ("/home/auditor/tools/slither/slither/slither.py", plain_file);
          ("/home/auditor/tools/medusa", directory);
          ("/home/auditor/tools/medusa/medusa", directory);
          ("/home/auditor/tools/medusa/medusa/__init__.py", plain_file);
          ("/home/auditor/tools/echidna", directory);
          ("/home/auditor/tools/web3se-lab", directory);
          ("/home/auditor/tools/web3se-lab/web3-scanner", program);
          ("/srv/audit", directory) ].

(** [sleep 5] outlives every integer deadline below five seconds; any other
    command prints a line and exits with status 0. *)
Definition sleeper : process :=
  Process 4242 (fun timeout =>
    match timeout with
    | VInt n => if (n <? 5)%Z then TimedOut "" ""
                else Completed "" "" 0 disk
    | VNone => Completed "" "" 0 disk
    | _ => CommError (Exn TypeError "unsupported operand type(s)")
    end) None.

Definition talker : process :=
  Process 4243 (fun _ => Completed "hello" "" 0 disk) None.

(** Ran past a deadline after writing to both streams. *)
Definition straggler : process :=
  Process 4244 (fun _ => TimedOut "analysing" "warning: slow") None.

Definition shell (cmd : string) (dir : option string)
    (env : gmap string string) : spawn_outcome :=
  if String.eqb cmd "sleep 5" then Spawned sleeper
  else if String.prefix "/home/auditor/tools/" cmd then Spawned straggler
  else Spawned talker.

(** No user is called ghost: [expanduser()] gives up on [~ghost]. *)
Definition resolver (s : string) : exn + string :=
  if String.eqb s "." then inr "/srv/audit"
  else if String.prefix "~ghost" s
  then inl (Exn RuntimeError "Could not determine home directory.")
  else inr s.

Definition world : world :=
  {| home := "/home/auditor";
     environ := {[ "PATH" := "/usr/bin:/bin" ]};
     fs := disk;
     expand_resolve := resolver;
     create_subprocess_shell := shell;
     run_which := fun _ => inr (1%Z, "");
     urlopen := fun _ =>
       inl (Exn OSError "<urlopen error [Errno 111] Connection refused>");
     json_loads := fun _ => inr JsonOther |}.

End Lab.

Module Field.

(** A machine on which solc-select is installed with a launcher under
    [bin], mythril is checked out, and web3se-lab is absent. *)
Definition disk : filesystem :=
  fs_of [ ("/home/auditor", Lab.directory);
          ("/home/auditor/tools", Lab.directory);
          ("/home/auditor/tools/solc-select", Lab.directory);
          ("/home/auditor/tools/solc-select/bin", Lab.directory);
          ("/home/auditor/tools/solc-select/bin/solc-select", Lab.program);
          ("/home/auditor/tools/mythril2.0", Lab.directory);
          ("/home/auditor/tools/mythril2.0/mythril", Lab.directory);
          ("/home/auditor/tools/mythril2.0/mythril/mythril", Lab.plain_file);
          ("/home/auditor/tools/securify2", Lab.directory);
          ("/srv/audit", Lab.directory) ].

(** No shell can be started; forge is on [PATH]; both services answer. *)
Definition outage : world :=
  {| home := "/home/auditor";
     environ := {[ "PATH" := "/usr/local/bin:/usr/bin";
                   "SMARTBERT_API" := "http://10.0.0.5:9900" ]};
     fs := disk;
     expand_resolve := Lab.resolver;
     create_subprocess_shell := fun _ _ _ =>
       SpawnFailed (Exn OSError "[Errno 13] Permission denied: '/bin/sh'");
     run_which := fun tool =>
       if String.eqb tool "forge"
       then inr (0%Z, "/usr/local/bin/forge" +:+ nl)
       else inr (1%Z, "");
     urlopen := fun _ => inr "{}";
     json_loads := fun _ => inr (JsonDict "SmartBERT-v2") |}.

(** What the scanner leaves behind: the report it was asked to write. *)
Definition disk_after_scan : filesystem :=
  fun p => if String.eqb p "report.json" then Node Lab.plain_file
           else Lab.disk p.

Definition scanner_run : process :=
  Process 4245 (fun _ => Completed "2 findings" "" 3 disk_after_scan) None.

(** The laboratory checkout, where every command runs to completion with
    exit status 3. *)
Definition scanning : world :=
  {| home := "/home/auditor";
     environ := {[ "PATH" := "/usr/bin:/bin" ]};
     fs := Lab.disk;
     expand_resolve := Lab.resolver;
     create_subprocess_shell := fun _ _ _ => Spawned scanner_run;
     run_which := fun _ => inr (1%Z, "");
     urlopen := fun _ => inr "{}";
     json_loads := fun _ => inr JsonOther |}.

(** A child that ends on its own just as the wait for it is given up:
    [kill()] finds no process left. *)
Definition late_finisher : process :=
  Process 4246 (fun _ => TimedOut "" "") (Some (Exn ProcessLookupError "")).

(** The laboratory, where every command ends at its deadline. *)
Definition racing : world :=
  {| home := "/home/auditor";
     environ := {[ "PATH" := "/usr/bin:/bin" ]};
     fs := Lab.disk;
     expand_resolve := Lab.resolver;
     create_subprocess_shell := fun _ _ _ => Spawned late_finisher;
     run_which := fun _ => inr (1%Z, "");
     urlopen := fun _ => inr "{}";
     json_loads := fun _ => inr JsonOther |}.

(** The laboratory checkout after the medusa and web3se-lab directories
    lost their search permission: both are found, and nothing below them
    can be looked at. *)
Definition locked_disk : filesystem :=
  fun p => if String.prefix "/home/auditor/tools/medusa/" p
              || String.prefix "/home/auditor/tools/web3se-lab/" p
           then StatError (Exn PermissionError
                  ("[Errno 13] Permission denied: '" +:+ p +:+ "'"))
           else Lab.disk p.

(** Both services answer. *)
Definition locked : world :=
  {| home := "/home/auditor";
     environ := {[ "PATH" := "/usr/bin:/bin" ]};
     fs := locked_disk;
     expand_resolve := Lab.resolver;
     create_subprocess_shell := fun _ _ _ => Spawned Lab.talker;
     run_which := fun _ => inr (1%Z, "");
     urlopen := fun _ => inr "{}";
     json_loads := fun _ => inr (JsonDict "SmartBERT-v2") |}.

End Field.

(** * Properties *)

(** ** Reasoning about computations *)

Lemma outcome_bind {A B} (m : M A) (k : A → M B) :
  outcome_of (bind m k)
  = match outcome_of m with
    | Ok a => outcome_of (k a)
    | Raise e => Raise e
    end.
Proof.
  destruct m as [t [a|e]]; simpl; [|reflexivity].
  destruct (k a); reflexivity.
Qed.

Lemma trace_bind {A B} (m : M A) (k : A → M B) :
  trace_of (bind m k)
  = (trace_of m ++ match outcome_of m with
                   | Ok a => trace_of (k a)
                   | Raise _ => []
                   end)%list.
Proof.
  destruct m as [t [a|e]]; simpl.
  - destruct (k a); reflexivity.
  - by rewrite app_nil_r.
Qed.

Lemma outcome_try_except_ok {A} (m : M A) (h : exn → M A) :
  (∀ e, ∃ a, outcome_of (h e) = Ok a) →
  ∃ a, outcome_of (try_except m h) = Ok a.
Proof.
  intros Hh. destruct m as [t [a|e]]; simpl; [by eexists|].
  destruct (Hh e) as [a Ha]. destruct (h e) as [t' r]; simpl in *. by eexists.
Qed.

Lemma outcome_ret {A} (a : A) : outcome_of (ret a) = Ok a.
Proof. reflexivity. Qed.

Lemma outcome_answer {A} (r : result A) : outcome_of (answer r) = r.
Proof. reflexivity. Qed.

Lemma outcome_probe_exists f p :
  outcome_of (probe_exists f p) = path_exists f p.
Proof. reflexivity. Qed.

Lemma outcome_probe_access f p :
  outcome_of (probe_access f p) = Ok (fs_access_x f p).
Proof. reflexivity. Qed.

Lemma outcome_probe_is_dir f p :
  outcome_of (probe_is_dir f p) = path_is_dir f p.
Proof. reflexivity. Qed.

Lemma outcome_text_result s :
  outcome_of (text_result s) = Ok [ {| type := "text"; text := s |} ].
Proof. reflexivity. Qed.

Create Rewrite HintDb outcome.
#[global] Hint Rewrite @outcome_bind @outcome_ret @outcome_answer
  outcome_probe_exists outcome_probe_access outcome_probe_is_dir
  outcome_text_result : outcome.

(** Push [outcome_of] through the next binds and reduce the exposed matches. *)
Ltac outcome_step := autorewrite with outcome; cbv beta iota.

(** ** What the probes answer *)

Lemma path_exists_found f p :
  fs_exists f p = true → path_exists f p = Ok true.
Proof. unfold fs_exists, path_exists. by destruct (f p). Qed.

Lemma path_exists_no_error f p :
  fs_error f p = None → path_exists f p = Ok (fs_exists f p).
Proof. unfold fs_error, fs_exists, path_exists. by destruct (f p). Qed.

Lemma path_exists_answer f p b :
  path_exists f p = Ok b → fs_exists f p = b ∧ fs_error f p = None.
Proof.
  unfold fs_error, fs_exists, path_exists.
  destruct (f p); intros [= <-]; by split.
Qed.

Lemma path_exists_absent f p : path_exists f p = Ok false ↔ f p = NoEntry.
Proof. unfold path_exists. destruct (f p); split; congruence. Qed.

Lemma path_exists_raises f p e :
  path_exists f p = Raise e ↔ f p = StatError e.
Proof. unfold path_exists. destruct (f p); split; congruence. Qed.

(** ** The resolver, as a function of the filesystem snapshot *)

Section Resolver.

Variable w : world.

Lemma first_executable_outcome paths :
  outcome_of (first_executable w paths) = first_runnable w paths.
Proof.
  induction paths as [|p rest IH]; [reflexivity|].
  cbn [first_executable first_runnable]. outcome_step.
  destruct (path_exists (fs w) p) as [[]|e]; [|exact IH|reflexivity].
  outcome_step. destruct (fs_access_x (fs w) p); [reflexivity|exact IH].
Qed.

Lemma first_runnable_no_error paths :
  Forall (λ p, fs_error (fs w) p = None) paths →
  first_runnable w paths = Ok (find (runnable w) paths).
Proof.
  induction 1 as [|p rest Hp _ IH]; [reflexivity|].
  cbn [first_runnable find]. unfold runnable at 1.
  rewrite (path_exists_no_error _ _ Hp).
  destruct (fs_exists (fs w) p); cbn [andb]; [|exact IH].
  destruct (fs_access_x (fs w) p); [reflexivity|exact IH].
Qed.

Lemma first_runnable_found paths p :
  first_runnable w paths = Ok (Some p) →
  In p paths ∧ fs_exists (fs w) p = true ∧ fs_access_x (fs w) p = true.
Proof.
  induction paths as [|q rest IH]; [discriminate|].
  cbn [first_runnable].
  destruct (path_exists (fs w) q) as [[]|e] eqn:Hq; [| |discriminate].
  - destruct (fs_access_x (fs w) q) eqn:Hx.
    + intros [= <-]. apply path_exists_answer in Hq as [Hq _].
      split; [by left|by split].
    + intros H. destruct (IH H) as (? & ? & ?). split; [by right|by split].
  - intros H. destruct (IH H) as (? & ? & ?). split; [by right|by split].
Qed.

Lemma first_runnable_raises paths e :
  first_runnable w paths = Raise e →
  ∃ p, In p paths ∧ fs w p = StatError e.
Proof.
  induction paths as [|q rest IH]; [discriminate|].
  cbn [first_runnable].
  destruct (path_exists (fs w) q) as [[]|e'] eqn:Hq.
  - destruct (fs_access_x (fs w) q); [discriminate|].
    intros H. destruct (IH H) as (p & ? & ?). exists p. split; [by right|done].
  - intros H. destruct (IH H) as (p & ? & ?). exists p. split; [by right|done].
  - intros [= ->]. exists q. split; [by left|]. by apply path_exists_raises.
Qed.

Lemma module_found_no_error config tool_name :
  Forall (λ p, fs_error (fs w) p = None) (probed_paths config tool_name) →
  ∃ found, module_found w config = Ok found.
Proof.
  unfold probed_paths, module_found.
  destruct (probed_module_path config) as [module_path|]; [|by eexists].
  cbn [app]. intros Hpaths.
  apply Forall_cons in Hpaths as [H1 Hpaths].
  apply Forall_cons in Hpaths as [H2 _].
  rewrite (path_exists_no_error _ _ H1).
  destruct (fs_exists (fs w) module_path); [by eexists|].
  rewrite (path_exists_no_error _ _ H2). by eexists.
Qed.

Lemma module_found_raises config tool_name e :
  module_found w config = Raise e →
  ∃ p, In p (probed_paths config tool_name) ∧ fs w p = StatError e.
Proof.
  unfold probed_paths, module_found.
  destruct (probed_module_path config) as [module_path|]; [|discriminate].
  destruct (path_exists (fs w) module_path) as [[]|e'] eqn:H1.
  - discriminate.
  - intros H2. exists (module_path </> "__init__.py").
    split; [cbn; tauto|]. by apply path_exists_raises.
  - intros [= ->]. exists module_path.
    split; [cbn; tauto|]. by apply path_exists_raises.
Qed.

(** The lookup, probe by probe. *)
Lemma find_tool_executable_outcome tool_name :
  outcome_of (find_tool_executable w tool_name)
  = match tool_configs w !! lower tool_name with
    | None => Ok None
    | Some config =>
        match path_exists (fs w) (cfg_dir config) with
        | Raise e => Raise e
        | Ok false => Ok None
        | Ok true =>
            match module_found w config with
            | Raise e => Raise e
            | Ok true => Ok (Some (template_info config))
            | Ok false =>
                match first_runnable w (candidates config tool_name) with
                | Raise e => Raise e
                | Ok (Some path) =>
                    Ok (Some {| command := path;
                                cwd := cfg_dir config;
                                description := cfg_description config |})
                | Ok None => Ok (Some (template_info config))
                end
            end
        end
    end.
Proof.
  unfold find_tool_executable. cbv zeta.
  destruct (tool_configs w !! lower tool_name) as [config|]; [|reflexivity].
  outcome_step.
  destruct (path_exists (fs w) (cfg_dir config)) as [[]|e]; cbn [negb];
    [|reflexivity|reflexivity].
  assert (Hdirect :
    outcome_of (found <- first_executable w (candidates config tool_name) ;;
                match found with
                | Some path =>
                    ret (Some {| command := path;
                                 cwd := cfg_dir config;
                                 description := cfg_description config |})
                | None => ret (Some (template_info config))
                end)
    = match first_runnable w (candidates config tool_name) with
      | Raise e => Raise e
      | Ok (Some path) =>
          Ok (Some {| command := path;
                      cwd := cfg_dir config;
                      description := cfg_description config |})
      | Ok None => Ok (Some (template_info config))
      end).
  { rewrite outcome_bind, first_executable_outcome.
    by destruct (first_runnable w (candidates config tool_name)) as [[]|]. }
  fold (candidates config tool_name). fold (template_info config).
  unfold module_found, probed_module_path.
  destruct (contains "python3" (cfg_command config)); [|exact Hdirect].
  destruct (tail (split (cfg_command config))) as [|part0 parts]; [exact Hdirect|].
  rewrite outcome_bind, outcome_probe_exists.
  destruct (path_exists (fs w) (cfg_dir config </> replace "." "/" part0))
    as [[]|e]; rewrite ?outcome_bind; cbv beta iota.
  - reflexivity.
  - rewrite outcome_probe_exists.
    destruct (path_exists (fs w)
                (cfg_dir config </> replace "." "/" part0 </> "__init__.py"))
      as [[]|e]; [reflexivity|exact Hdirect|reflexivity].
  - reflexivity.
Qed.

Lemma find_tool_executable_none_iff tool_name :
  outcome_of (find_tool_executable w tool_name) = Ok None ↔
  tool_configs w !! lower tool_name = None ∨
  ∃ config, tool_configs w !! lower tool_name = Some config
            ∧ fs w (cfg_dir config) = NoEntry.
Proof.
  rewrite find_tool_executable_outcome.
  destruct (tool_configs w !! lower tool_name) as [config|] eqn:Hcfg;
    [|split; [by left|reflexivity]].
  destruct (path_exists (fs w) (cfg_dir config)) as [[]|e] eqn:Hdir.
  - split.
    + destruct (module_found w config) as [[]|]; try discriminate.
      destruct (first_runnable _ _) as [[]|]; discriminate.
    + intros [?|(c & [= <-] & Hc)]; [discriminate|].
      apply path_exists_absent in Hc. congruence.
  - split; [|reflexivity]. intros _. right. exists config.
    split; [reflexivity|]. by apply path_exists_absent.
  - split; [discriminate|].
    intros [?|(c & [= <-] & Hc)]; [discriminate|].
    apply path_exists_absent in Hc. congruence.
Qed.

(** What a successful lookup hands out comes from the registry entry and
    from the probes that answered. *)
Lemma find_tool_executable_found tool_name info :
  outcome_of (find_tool_executable w tool_name) = Ok (Some info) →
  ∃ config,
    tool_configs w !! lower tool_name = Some config
    ∧ fs_exists (fs w) (cfg_dir config) = true
    ∧ cwd info = cfg_dir config
    ∧ description info = cfg_description config
    ∧ (command info = cfg_command config
       ∨ (In (command info) (candidates config tool_name)
          ∧ fs_exists (fs w) (command info) = true
          ∧ fs_access_x (fs w) (command info) = true)).
Proof.
  rewrite find_tool_executable_outcome.
  destruct (tool_configs w !! lower tool_name) as [config|]; [|discriminate].
  destruct (path_exists (fs w) (cfg_dir config)) as [[]|e] eqn:Hdir;
    [|discriminate|discriminate].
  apply path_exists_answer in Hdir as [Hdir _].
  intros Hinfo. exists config. split; [reflexivity|]. split; [exact Hdir|].
  destruct (module_found w config) as [[]|]; [| |discriminate].
  { injection Hinfo as <-. cbn. by repeat split; try left. }
  destruct (first_runnable w (candidates config tool_name)) as [[path|]|]
    eqn:Hfind; [| |discriminate]; injection Hinfo as <-; cbn.
  - apply first_runnable_found in Hfind as (Hin & Hex & Hacc).
    split; [reflexivity|]. split; [reflexivity|]. right. by repeat split.
  - split; [reflexivity|]. split; [reflexivity|]. by left.
Qed.

(** An exception that leaves the lookup is the error of a probe: of the
    installation directory or of a path below it. *)
Lemma find_tool_executable_raises tool_name e :
  outcome_of (find_tool_executable w tool_name) = Raise e →
  ∃ config p,
    tool_configs w !! lower tool_name = Some config
    ∧ In p (cfg_dir config :: probed_paths config tool_name)
    ∧ fs w p = StatError e.
Proof.
  rewrite find_tool_executable_outcome.
  destruct (tool_configs w !! lower tool_name) as [config|]; [|discriminate].
  intros Hraise. exists config.
  destruct (path_exists (fs w) (cfg_dir config)) as [[]|e'] eqn:Hdir.
  - destruct (module_found w config) as [[]|e'] eqn:Hmod.
    + discriminate.
    + destruct (first_runnable w (candidates config tool_name)) as [[path|]|e']
        eqn:Hfind; try discriminate.
      injection Hraise as ->.
      apply first_runnable_raises in Hfind as (p & Hin & Hp).
      exists p. split; [reflexivity|]. split; [|exact Hp].
      right. unfold probed_paths. apply in_or_app. by right.
    + injection Hraise as ->.
      apply (module_found_raises _ tool_name) in Hmod as (p & Hin & Hp).
      exists p. split; [reflexivity|]. split; [by right|exact Hp].
  - discriminate.
  - injection Hraise as ->. exists (cfg_dir config).
    split; [reflexivity|]. split; [by left|]. by apply path_exists_raises.
Qed.

End Resolver.

Lemma find_none_iff {A} (f : A → bool) (l : list A) :
  find f l = None ↔ ∀ x, In x l → f x = false.
Proof.
  split; [apply find_none|].
  induction l as [|a l IH]; intros H; [reflexivity|]. cbn.
  rewrite (H a) by (by left). apply IH. intros x Hx. apply H. by right.
Qed.

(** C2, as the code has it: [find_tool_executable] returns [None] exactly
    when the lower-cased name is not a key of the registry or [exists()]
    answers [False] for the directory registered for it.  When the name is
    registered, its directory exists and [os.stat] fails for none of the
    paths looked at below it, an invocation is returned.  An invocation
    that is returned has that directory as its working directory, and the
    registry's template as its command whenever none of the four candidate
    executables is present and executable.  Nothing else is returned: when
    the lookup raises, it raises the error with which [os.stat] failed for
    the directory or for one of the paths below it. *)
Theorem C2_resolve_none_iff_unregistered_or_not_installed
    (w : world) (tool_name : string) :
  (outcome_of (find_tool_executable w tool_name) = Ok None ↔
     tool_configs w !! lower tool_name = None ∨
     ∃ config, tool_configs w !! lower tool_name = Some config
               ∧ fs w (cfg_dir config) = NoEntry)
  ∧ (∀ config,
       tool_configs w !! lower tool_name = Some config →
       fs_exists (fs w) (cfg_dir config) = true →
       Forall (λ p, fs_error (fs w) p = None) (probed_paths config tool_name) →
       ∃ info, outcome_of (find_tool_executable w tool_name) = Ok (Some info))
  ∧ (∀ info,
       outcome_of (find_tool_executable w tool_name) = Ok (Some info) →
       ∃ config,
         tool_configs w !! lower tool_name = Some config
         ∧ fs_exists (fs w) (cfg_dir config) = true
         ∧ cwd info = cfg_dir config
         ∧ ((∀ p, In p (candidates config tool_name) → runnable w p = false) →
            command info = cfg_command config))
  ∧ (∀ e,
       outcome_of (find_tool_executable w tool_name) = Raise e →
       ∃ config p,
         tool_configs w !! lower tool_name = Some config
         ∧ In p (cfg_dir config :: probed_paths config tool_name)
         ∧ fs w p = StatError e).
Proof.
  split; [apply find_tool_executable_none_iff|].
  split; [|split; [|apply find_tool_executable_raises]].
  - intros config Hcfg Hdir Hpaths.
    rewrite find_tool_executable_outcome, Hcfg, (path_exists_found _ _ Hdir).
    destruct (module_found_no_error w config tool_name Hpaths) as [found ->].
    destruct found; [by eexists|].
    rewrite first_runnable_no_error
      by (unfold probed_paths in Hpaths; by apply Forall_app in Hpaths as [_ ?]).
    destruct (find (runnable w) (candidates config tool_name)); by eexists.
  - intros info Hfound.
    apply find_tool_executable_found in Hfound
      as (config & Hcfg & Hdir & Hcwd & _ & Hcommand).
    exists config. split; [exact Hcfg|]. split; [exact Hdir|].
    split; [exact Hcwd|]. intros Hnone.
    destruct Hcommand as [Htemplate|(Hin & Hexists & Haccess)];
      [exact Htemplate|].
    specialize (Hnone _ Hin). unfold runnable in Hnone.
    rewrite Hexists, Haccess in Hnone. discriminate Hnone.
Qed.

(** At the laboratory checkout, [Echidna] is registered, its directory
    exists and holds no executable: the template is returned. *)
Lemma C2_witness_echidna :
  ∃ info,
    outcome_of (find_tool_executable Lab.world "Echidna") = Ok (Some info)
    ∧ cwd info = "/home/auditor/tools/echidna"
    ∧ command info = "echidna-test".
Proof.
  destruct (C2_resolve_none_iff_unregistered_or_not_installed Lab.world "Echidna")
    as (_ & Hreturned & Hinvocation & _).
  destruct (Hreturned (ToolConfig "/home/auditor/tools/echidna" "echidna-test"
                         "Echidna fuzzing tool"))
    as [info Hout];
    [vm_compute; reflexivity | vm_compute; reflexivity | repeat constructor|].
  destruct (Hinvocation info Hout) as (config & Hcfg & _ & Hcwd & Hcmd).
  vm_compute in Hcfg. injection Hcfg as <-.
  exists info. split; [exact Hout|]. split; [exact Hcwd|].
  apply Hcmd. intros p Hp. cbn in Hp.
  destruct Hp as [<-|[<-|[<-|[<-|[]]]]]; vm_compute; reflexivity.
Defined.

(** C2 as stated fails where the installation directory exists and may not
    be searched: medusa is registered and its directory is found, and the
    lookup raises the [PermissionError] of its second probe instead of
    returning an invocation. *)
Lemma C2_counterexample_unsearchable_directory :
  tool_configs Field.locked !! lower "medusa"
  = Some (ToolConfig "/home/auditor/tools/medusa" "python3 -m medusa"
            "Medusa fuzzing tool")
  ∧ fs_exists (fs Field.locked) "/home/auditor/tools/medusa" = true
  ∧ find_tool_executable Field.locked "medusa"
    = ([ EvExists "/home/auditor/tools/medusa";
         EvExists "/home/auditor/tools/medusa/-m" ],
       Raise (Exn PermissionError
                "[Errno 13] Permission denied: '/home/auditor/tools/medusa/-m'")).
Proof. repeat split; vm_compute; reflexivity. Qed.



(** For the four entries launched with [python3 -m], the word after
    [python3] is the flag, so the path looked for is [installDir/-m]. *)
Lemma module_entries_probe_the_flag (w : world) (key : string) :
  In key ["securify2"; "securify"; "medusa"; "fuzz-utils"] →
  ∃ config,
    tool_configs w !! key = Some config
    ∧ probed_module_path config = Some (cfg_dir config </> "-m").
Proof.
  intros Hkey. cbn in Hkey.
  destruct Hkey as [<-|[<-|[<-|[<-|[]]]]]; eexists; split;
    try (vm_compute; reflexivity).
Qed.

(** C5, evaluated: medusa is launched as the module [medusa], and the package
    directory [medusa] with its [__init__.py] is present under the
    installation directory; the resolver looks for [-m] instead, finds
    nothing, and returns the package directory as the command rather than
    the template [python3 -m medusa]. *)
Theorem C5_module_path_not_probed_medusa :
  tool_configs Lab.world !! "medusa"
  = Some (ToolConfig "/home/auditor/tools/medusa" "python3 -m medusa"
            "Medusa fuzzing tool")
  ∧ fs_exists (fs Lab.world) "/home/auditor/tools/medusa/medusa" = true
  ∧ fs_exists (fs Lab.world) "/home/auditor/tools/medusa/medusa/__init__.py" = true
  ∧ find_tool_executable Lab.world "medusa"
    = ([ EvExists "/home/auditor/tools/medusa";
         EvExists "/home/auditor/tools/medusa/-m";
         EvExists "/home/auditor/tools/medusa/-m/__init__.py";
         EvExists "/home/auditor/tools/medusa/medusa";
         EvAccess "/home/auditor/tools/medusa/medusa" ],
       Ok (Some {| command := "/home/auditor/tools/medusa/medusa";
                   cwd := "/home/auditor/tools/medusa";
                   description := "Medusa fuzzing tool" |})).
Proof. repeat split; vm_compute; reflexivity. Qed.

(** ** The environment of child processes *)

Lemma prefix_app (s t : string) : String.prefix s (s +:+ t) = true.
Proof.
  induction s as [|c s IH]; cbn; [by destruct t|].
  unfold String.app in *. cbn.
  destruct (ascii_dec c c); [exact IH|congruence].
Qed.

Lemma contains_prefix (sub s : string) :
  String.prefix sub s = true → contains sub s = true.
Proof. intros H. destruct s; cbn [contains]; rewrite H; reflexivity. Qed.

Lemma DEFAULT_ENV_PATH (w : world) :
  DEFAULT_ENV w !! "PATH"
  = Some (TOOLS_DIR w +:+ ":" +:+ WEB3SE_LAB_DIR w +:+ ":"
          +:+ default "" (environ w !! "PATH")).
Proof.
  unfold DEFAULT_ENV.
  rewrite !lookup_insert_ne by discriminate. apply lookup_insert_eq.
Qed.

Lemma with_tools_path_idempotent (w : world) (env : gmap string string) :
  with_tools_path w (with_tools_path w env) = with_tools_path w env.
Proof.
  unfold with_tools_path at 2.
  destruct (contains (TOOLS_DIR w) (default "" (env !! "PATH"))) eqn:Hin; cbn [negb].
  - unfold with_tools_path. by rewrite Hin.
  - unfold with_tools_path. rewrite lookup_insert_eq. unfold default at 1 2. cbn [from_option id].
    rewrite contains_prefix by apply prefix_app. cbn [negb]. by rewrite Hin.
Qed.

Lemma prepare_env_DEFAULT_ENV (w : world) : prepare_env w = DEFAULT_ENV w.
Proof.
  unfold prepare_env, with_tools_path. rewrite DEFAULT_ENV_PATH.
  unfold default at 1. cbn [from_option id].
  by rewrite contains_prefix by apply prefix_app.
Qed.

(** ** Properties carried by every event of a trace *)

Lemma trace_forall_bind {A B} (P : event → Prop) (m : M A) (k : A → M B) :
  Forall P (trace_of m) →
  (∀ a, Forall P (trace_of (k a))) →
  Forall P (trace_of (bind m k)).
Proof.
  intros Hm Hk. rewrite trace_bind. apply Forall_app. split; [exact Hm|].
  destruct (outcome_of m); [apply Hk|constructor].
Qed.

Lemma trace_forall_try_except {A} (P : event → Prop) (m : M A) (h : exn → M A) :
  Forall P (trace_of m) →
  (∀ e, Forall P (trace_of (h e))) →
  Forall P (trace_of (try_except m h)).
Proof.
  intros Hm Hh. destruct m as [t [a|e]]; cbn in *; [exact Hm|].
  specialize (Hh e). destruct (h e) as [t' r]; cbn in *.
  apply Forall_app. by split.
Qed.

Lemma trace_forall_emit (P : event → Prop) (ev : event) :
  P ev → Forall P (trace_of (emit ev)).
Proof. intros H. by repeat constructor. Qed.

(** One step of a proof that every event of a trace has a property: split
    binds and handlers, settle the primitives, and case on whatever the
    next branch looks at. *)
Ltac trace_step :=
  first
    [ apply Forall_nil_2
    | solve [auto]
    | apply trace_forall_emit; exact I
    | apply trace_forall_emit; reflexivity
    | apply trace_forall_bind; [|intros ?]
    | apply trace_forall_try_except; [|intros ?]
    | match goal with
      | |- Forall _ (trace_of (let '(_, _) := ?x in _)) => destruct x
      | |- Forall _ (trace_of (match ?x with _ => _ end)) => destruct x
      end ].

Ltac trace_auto := repeat trace_step.

Section ProbeTraces.

Variable w : world.

Lemma first_executable_probes paths :
  Forall probe_only (trace_of (first_executable w paths)).
Proof.
  induction paths as [|p rest IH]; cbn [first_executable];
    unfold probe_exists, probe_access; trace_auto.
Qed.

Lemma find_tool_executable_probes tool_name :
  Forall probe_only (trace_of (find_tool_executable w tool_name)).
Proof.
  unfold find_tool_executable, probe_exists. cbv zeta.
  pose proof first_executable_probes. trace_auto.
Qed.

Lemma search_tool_dirs_probes tool_name tool_dirs :
  Forall probe_only (trace_of (search_tool_dirs w tool_name tool_dirs)).
Proof.
  induction tool_dirs as [|d rest IH]; cbn [search_tool_dirs];
    unfold probe_exists, probe_is_dir; pose proof first_executable_probes;
    trace_auto.
Qed.

End ProbeTraces.

Lemma probe_only_uses_env (expected : gmap string string) (ev : event) :
  probe_only ev → uses_env expected ev.
Proof. by destruct ev. Qed.

Section EnvOfTraces.

Variable w : world.

Local Abbreviation env_ok := (Forall (uses_env (DEFAULT_ENV w))).

Lemma find_tool_executable_env tool_name :
  env_ok (trace_of (find_tool_executable w tool_name)).
Proof.
  eapply Forall_impl; [apply find_tool_executable_probes|].
  apply probe_only_uses_env.
Qed.

Lemma search_tool_dirs_env tool_name tool_dirs :
  env_ok (trace_of (search_tool_dirs w tool_name tool_dirs)).
Proof.
  eapply Forall_impl; [apply search_tool_dirs_probes|].
  apply probe_only_uses_env.
Qed.

Lemma join_values_env i parts : env_ok (trace_of (join_values i parts)).
Proof.
  revert i. induction parts as [|v rest IH]; intros i; cbn [join_values];
    [apply Forall_nil_2|].
  destruct v; trace_auto.
Qed.

Lemma check_web3se_status_env : env_ok (trace_of (check_web3se_status w)).
Proof. unfold check_web3se_status, probe_exists, text_result. trace_auto. Qed.

Lemma call_tool_env name arguments :
  env_ok (trace_of (call_tool w name arguments)).
Proof.
  pose proof find_tool_executable_env.
  pose proof search_tool_dirs_env. pose proof join_values_env.
  pose proof check_web3se_status_env.
  unfold call_tool, execute_command, check_tool_available, run_security_tool,
    find_tool_or_alias, launch_tool, web3_scanner_scan, start_web3se_services, text_result, path_resolve,
    value_lower, spawn, wait_for_communicate, kill_and_reap, probe_exists,
    path_of.
  rewrite prepare_env_DEFAULT_ENV.
  trace_auto.
Qed.

End EnvOfTraces.

(** C6, as the code has it: every child process started by an operation
    receives [DEFAULT_ENV]: the base environment with [PATH] prefixed by
    the tools root (and the web3se-lab directory) and the two endpoint
    variables set, every other variable as in the base environment.  The
    per-call overlay finds the tools root already in [PATH], so it adds
    nothing, however often it is applied.  The prefix itself is put in
    front of whatever [PATH] the base environment has: built from its own
    result, [DEFAULT_ENV] carries the prefix twice. *)
Theorem C6_child_environment_is_overlaid_base_environment
    (w : world) (name : string) (arguments : gmap string value) :
  Forall (uses_env (DEFAULT_ENV w)) (trace_of (call_tool w name arguments))
  ∧ DEFAULT_ENV w !! "PATH"
    = Some (TOOLS_DIR w +:+ ":" +:+ WEB3SE_LAB_DIR w +:+ ":"
            +:+ default "" (environ w !! "PATH"))
  ∧ DEFAULT_ENV w !! "SMARTBERT_API"
    = Some (default "http://localhost:9900" (environ w !! "SMARTBERT_API"))
  ∧ DEFAULT_ENV w !! "WEB3_SEKIT_API"
    = Some (default "http://localhost:8081" (environ w !! "WEB3_SEKIT_API"))
  ∧ (∀ key, key ≠ "PATH" → key ≠ "SMARTBERT_API" → key ≠ "WEB3_SEKIT_API" →
       DEFAULT_ENV w !! key = environ w !! key)
  ∧ prepare_env w = DEFAULT_ENV w
  ∧ with_tools_path w (prepare_env w) = prepare_env w
  ∧ (∀ env, with_tools_path w (with_tools_path w env) = with_tools_path w env)
  ∧ DEFAULT_ENV (with_environ w (DEFAULT_ENV w)) !! "PATH"
    = Some (TOOLS_DIR w +:+ ":" +:+ WEB3SE_LAB_DIR w +:+ ":"
            +:+ TOOLS_DIR w +:+ ":" +:+ WEB3SE_LAB_DIR w +:+ ":"
            +:+ default "" (environ w !! "PATH")).
Proof.
  split; [apply call_tool_env|].
  split; [apply DEFAULT_ENV_PATH|].
  split; [unfold DEFAULT_ENV; rewrite lookup_insert_ne by discriminate;
          apply lookup_insert_eq|].
  split; [apply lookup_insert_eq|].
  split; [intros key H1 H2 H3; unfold DEFAULT_ENV;
          by rewrite !lookup_insert_ne by congruence|].
  split; [apply prepare_env_DEFAULT_ENV|].
  split; [apply with_tools_path_idempotent|].
  split; [apply with_tools_path_idempotent|].
  rewrite DEFAULT_ENV_PATH. cbn [environ with_environ].
  rewrite DEFAULT_ENV_PATH. reflexivity.
Qed.

(** C6 as stated fails for a base environment that already lists the tools
    root, as the one the server itself hands to its children does: a
    server started from [DEFAULT_ENV] of the laboratory prefixes its
    [PATH] once more, and the tools root is in it twice. *)
Lemma C6_counterexample_tools_root_listed_twice :
  path_entries (default "" (DEFAULT_ENV Lab.world !! "PATH"))
  = [ "/home/auditor/tools"; "/home/auditor/tools/web3se-lab";
      "/usr/bin"; "/bin" ]
  ∧ TOOLS_DIR (with_environ Lab.world (DEFAULT_ENV Lab.world))
    = "/home/auditor/tools"
  ∧ path_entries
      (default ""
         (DEFAULT_ENV (with_environ Lab.world (DEFAULT_ENV Lab.world))
          !! "PATH"))
    = [ "/home/auditor/tools"; "/home/auditor/tools/web3se-lab";
        "/home/auditor/tools"; "/home/auditor/tools/web3se-lab";
        "/usr/bin"; "/bin" ].
Proof. repeat split; vm_compute; reflexivity. Qed.

(** ** Missing arguments *)

Lemma run_security_tool_arguments_default
    (w : world) (arguments : gmap string value) :
  run_security_tool w (delete "arguments" arguments)
  = run_security_tool w (<["arguments" := VStr ""]> arguments).
Proof.
  unfold run_security_tool, arg_get.
  rewrite lookup_delete_eq, lookup_insert_eq.
  by rewrite !lookup_delete_ne, !lookup_insert_ne by discriminate.
Qed.

(** C4, as the code has it: when [command] (execute_command), [tool_name]
    (run_security_tool, check_tool_available) or [repository_path]
    (web3_scanner_scan) is absent, the operation returns its text error
    and touches nothing outside the process.  An absent [arguments] of
    run_security_tool is no error: it is read as the empty string. *)
Theorem C4_absent_required_argument_reported_without_io
    (w : world) (arguments : gmap string value) :
  (arguments !! "command" = None →
     call_tool w "execute_command" arguments
     = ([], Ok [ {| type := "text"; text := "Error: No command provided" |} ]))
  ∧ (arguments !! "tool_name" = None →
       call_tool w "run_security_tool" arguments
       = ([], Ok [ {| type := "text";
                      text := "Error: No tool name provided. Supported tools: slither, mythril, echidna, securify2, medusa, fuzz-utils, solc-select" |} ]))
  ∧ (arguments !! "tool_name" = None →
       call_tool w "check_tool_available" arguments
       = ([], Ok [ {| type := "text"; text := "Error: No tool name provided" |} ]))
  ∧ (arguments !! "repository_path" = None →
       call_tool w "web3_scanner_scan" arguments
       = ([], Ok [ {| type := "text";
                      text := "Error: No repository path provided" |} ]))
  ∧ call_tool w "run_security_tool" (delete "arguments" arguments)
    = call_tool w "run_security_tool" (<["arguments" := VStr ""]> arguments).
Proof.
  repeat split.
  - intros H. cbn [call_tool String.eqb Ascii.eqb Bool.eqb].
    unfold execute_command, arg_get. by rewrite H.
  - intros H. unfold call_tool. cbn [String.eqb Ascii.eqb Bool.eqb].
    unfold run_security_tool, arg_get. by rewrite H.
  - intros H. unfold call_tool. cbn [String.eqb Ascii.eqb Bool.eqb].
    unfold check_tool_available, arg_get. by rewrite H.
  - intros H. unfold call_tool. cbn [String.eqb Ascii.eqb Bool.eqb].
    unfold web3_scanner_scan, arg_get. by rewrite H.
  - unfold call_tool. cbn [String.eqb Ascii.eqb Bool.eqb].
    apply run_security_tool_arguments_default.
Qed.

(** With an empty argument bag all four operations answer with their
    error and an empty trace. *)
Lemma C4_witness_empty_bag :
  call_tool Lab.world "execute_command" ∅
  = ([], Ok [ {| type := "text"; text := "Error: No command provided" |} ])
  ∧ call_tool Lab.world "web3_scanner_scan" ∅
    = ([], Ok [ {| type := "text";
                   text := "Error: No repository path provided" |} ]).
Proof.
  pose proof (C4_absent_required_argument_reported_without_io Lab.world ∅)
    as (Hcommand & _ & _ & Hrepo & _).
  split; [apply Hcommand | apply Hrepo]; apply lookup_empty.
Defined.

(** C4 as stated fails for [arguments] of run_security_tool: with only
    [tool_name] given, echidna is looked up on disk and its command is
    started. *)
Lemma C4_counterexample_arguments_absent :
  ({[ "tool_name" := VStr "echidna" ]} : gmap string value) !! "arguments" = None
  ∧ call_tool Lab.world "run_security_tool" {[ "tool_name" := VStr "echidna" ]}
    = ([ EvExists "/home/auditor/tools/echidna";
         EvExists "/home/auditor/tools/echidna/echidna";
         EvExists "/home/auditor/tools/echidna/echidna";
         EvExists "/home/auditor/tools/echidna/bin/echidna";
         EvExists "/home/auditor/tools/echidna/bin/echidna";
         EvResolve ".";
         EvResolve "/home/auditor/tools/echidna";
         EvExists "/home/auditor/tools/echidna";
         EvSpawn "echidna-test" (Some "/home/auditor/tools/echidna")
           (DEFAULT_ENV Lab.world);
         EvCommunicate 4243 (VInt 300) (Completed "hello" "" 0 Lab.disk) ],
       Ok [ {| type := "text";
               text := "Security Tool Execution: echidna" +:+ nl
                       +:+ "Command: echidna-test" +:+ nl
                       +:+ "Working Directory: /home/auditor/tools/echidna" +:+ nl
                       +:+ "Exit Code: 0" +:+ nl
                       +:+ "==================================================" +:+ nl
                       +:+ "STDOUT:" +:+ nl +:+ "hello" +:+ nl |} ]).
Proof. split; vm_compute; reflexivity. Qed.

(** ** Timeouts *)

Lemma bind_ret_l {A B} (a : A) (k : A → M B) : bind (ret a) k = k a.
Proof. unfold bind, ret. by destruct (k a). Qed.

Lemma bind_outcome_ok {A B} (m : M A) (k : A → M B) (a : A) :
  outcome_of m = Ok a →
  bind m k = ((trace_of m ++ trace_of (k a))%list, outcome_of (k a)).
Proof.
  destruct m as [t [x|e]]; cbn; intros [= ->]. by destruct (k a).
Qed.

Lemma bind_probe_exists {B} (f : filesystem) (p : string) (b : bool)
    (k : bool → M B) :
  path_exists f p = Ok b →
  bind (probe_exists f p) k = (EvExists p :: trace_of (k b), outcome_of (k b)).
Proof.
  intros Hb. unfold probe_exists. cbn. rewrite Hb. by destruct (k b).
Qed.

Lemma truthy_nonempty (s : string) : s ≠ "" → truthy (VStr s) = true.
Proof. intros H. by destruct s. Qed.

Lemma find_tool_or_alias_probes (w : world) (tool_name : string) :
  Forall probe_only (trace_of (find_tool_or_alias w tool_name)).
Proof.
  unfold find_tool_or_alias. pose proof (find_tool_executable_probes w).
  trace_auto.
Qed.

Lemma securify_spellings_share_directory (w : world) :
  ∃ config config2,
    tool_configs w !! lower "securify" = Some config
    ∧ tool_configs w !! lower "securify2" = Some config2
    ∧ cfg_dir config = TOOLS_DIR w </> "securify2"
    ∧ cfg_dir config2 = TOOLS_DIR w </> "securify2"
    ∧ cfg_description config2 = cfg_description config.
Proof. eexists _, _. repeat split; reflexivity. Qed.

(** The lookup with its retry has the outcome of the lookup alone. *)
Lemma find_tool_or_alias_outcome (w : world) (tool_name : string) :
  outcome_of (find_tool_or_alias w tool_name)
  = outcome_of (find_tool_executable w tool_name).
Proof.
  unfold find_tool_or_alias. rewrite outcome_bind.
  destruct (outcome_of (find_tool_executable w tool_name))
    as [[info|]|e] eqn:Hfirst; cbv beta iota; try reflexivity.
  destruct (String.eqb_spec tool_name "securify") as [->|_]; [|reflexivity].
  destruct (securify_spellings_share_directory w)
    as (config & config2 & Hc & Hc2 & Hd & Hd2 & _).
  apply find_tool_executable_none_iff in Hfirst
    as [Hnone|(c & Hsome & Hmissing)]; [congruence|].
  apply find_tool_executable_none_iff. right. exists config2.
  split; [exact Hc2|]. rewrite Hd2, <- Hd. congruence.
Qed.

Lemma find_tool_or_alias_found (w : world) (tool_name : string)
    (info : tool_info) :
  outcome_of (find_tool_executable w tool_name) = Ok (Some info) →
  find_tool_or_alias w tool_name
  = (trace_of (find_tool_executable w tool_name), Ok (Some info)).
Proof.
  intros Hfound. unfold find_tool_or_alias.
  rewrite (bind_outcome_ok _ _ _ Hfound). cbn. by rewrite app_nil_r.
Qed.

Lemma registered_name_nonempty (w : world) (tool_name : string)
    (config : tool_config) :
  tool_configs w !! lower tool_name = Some config → tool_name ≠ "".
Proof. intros Hcfg ->. discriminate Hcfg. Qed.

(** C1, as the code has it.  Take a call of execute_command or
    run_security_tool that gets as far as starting its child, and let the
    wait for the child end in a timeout.  Then [kill()] is called on the
    child.  When [kill()] succeeds the child is waited for, nothing follows,
    and the answer is one text that names the timeout argument and the
    command line that was started (and, for run_security_tool, the tool).
    When [kill()] raises, the child is not waited for and the answer is the
    text of the operation's [except Exception].  Either text is built from
    the arguments and the exception alone: nothing of what the child wrote
    ([po], [pe]) enters it. *)
Theorem C1_timeout_kills_reaps_and_reports
    (w : world) (arguments : gmap string value) (child : process)
    (po pe : string) :
  communicate child (arg_get arguments "timeout" (VInt 300)) = TimedOut po pe →
  (∀ cmd s d,
     arg_get arguments "command" (VStr "") = VStr cmd →
     cmd ≠ "" →
     arg_get arguments "working_directory" (VStr ".") = VStr s →
     expand_resolve w s = inr d →
     fs_exists (fs w) d = true →
     create_subprocess_shell w cmd (Some d) (DEFAULT_ENV w) = Spawned child →
     call_tool w "execute_command" arguments
     = (([ EvResolve s; EvExists d; EvSpawn cmd (Some d) (DEFAULT_ENV w);
           EvCommunicate (pid child) (arg_get arguments "timeout" (VInt 300))
             (TimedOut po pe);
           EvKill (pid child) ]
         ++ match kill child with
            | None => [EvWait (pid child)]
            | Some _ => []
            end)%list,
        Ok [ {| type := "text";
                text := match kill child with
                        | None =>
                            "Error: Command timed out after "
                            +:+ str (arg_get arguments "timeout" (VInt 300))
                            +:+ " seconds" +:+ nl
                            +:+ "Command: " +:+ cmd
                        | Some e =>
                            "Error executing command: " +:+ exn_msg e +:+ nl
                            +:+ "Command: " +:+ cmd
                        end |} ]))
  ∧ (∀ raw info s work_dir tool_cwd,
       arg_get arguments "tool_name" (VStr "") = VStr raw →
       outcome_of (find_tool_executable w (lower raw)) = Ok (Some info) →
       arg_get arguments "working_directory" (VStr ".") = VStr s →
       expand_resolve w s = inr work_dir →
       expand_resolve w (cwd info) = inr tool_cwd →
       fs_error (fs w) tool_cwd = None →
       create_subprocess_shell w
         (strip (command info +:+ " "
                 +:+ str (arg_get arguments "arguments" (VStr ""))))
         (Some (if fs_exists (fs w) tool_cwd then tool_cwd else work_dir))
         (DEFAULT_ENV w) = Spawned child →
       call_tool w "run_security_tool" arguments
       = ((trace_of (find_tool_executable w (lower raw))
           ++ [ EvResolve s; EvResolve (cwd info); EvExists tool_cwd;
                EvSpawn
                  (strip (command info +:+ " "
                          +:+ str (arg_get arguments "arguments" (VStr ""))))
                  (Some (if fs_exists (fs w) tool_cwd then tool_cwd
                         else work_dir))
                  (DEFAULT_ENV w);
                EvCommunicate (pid child)
                  (arg_get arguments "timeout" (VInt 300)) (TimedOut po pe);
                EvKill (pid child) ]
           ++ match kill child with
              | None => [EvWait (pid child)]
              | Some _ => []
              end)%list,
          Ok [ {| type := "text";
                  text := match kill child with
                          | None =>
                              "Error: Tool execution timed out after "
                              +:+ str (arg_get arguments "timeout" (VInt 300))
                              +:+ " seconds" +:+ nl
                              +:+ "Tool: " +:+ lower raw +:+ nl
                              +:+ "Command: "
                              +:+ strip (command info +:+ " "
                                         +:+ str (arg_get arguments "arguments"
                                                    (VStr "")))
                          | Some e =>
                              "Error running security tool: " +:+ exn_msg e
                              +:+ nl +:+ "Tool: " +:+ lower raw +:+ nl
                              +:+ "Arguments: "
                              +:+ str (arg_get arguments "arguments" (VStr ""))
                          end |} ])).
Proof.
  intros Hcomm. split.
  - intros cmd s d Hcmd Hne Hwd Hres Hexists Hspawn.
    unfold call_tool. cbn [String.eqb Ascii.eqb Bool.eqb].
    unfold execute_command. rewrite Hcmd, Hwd, truthy_nonempty by done.
    rewrite prepare_env_DEFAULT_ENV. cbn [negb].
    revert Hcomm. generalize (arg_get arguments "timeout" (VInt 300)) as t.
    intros t Hcomm.
    unfold path_resolve. cbn. rewrite Hres. cbn.
    rewrite (path_exists_found _ _ Hexists). cbn.
    rewrite Hspawn. cbn. rewrite Hcomm. cbn.
    by destruct (kill child).
  - intros raw info s work_dir tool_cwd Hraw Hfound Hwd Hres Hcwd Hstat Hspawn.
    assert (Hne : lower raw ≠ "").
    { apply find_tool_executable_found in Hfound as (config & Hcfg & _).
      by apply registered_name_nonempty in Hcfg. }
    unfold call_tool. cbn [String.eqb Ascii.eqb Bool.eqb].
    unfold run_security_tool. rewrite Hraw, Hwd. cbn [value_lower].
    rewrite bind_ret_l, truthy_nonempty by done. cbn [negb].
    rewrite (find_tool_or_alias_found _ _ _ Hfound).
    revert Hcomm Hspawn.
    generalize (arg_get arguments "timeout" (VInt 300)) as t.
    generalize (arg_get arguments "arguments" (VStr "")) as tool_args.
    intros tool_args t Hcomm Hspawn.
    unfold launch_tool, path_resolve. rewrite prepare_env_DEFAULT_ENV.
    destruct (find_tool_executable w (lower raw)) as [before found].
    cbn. rewrite Hres. cbn. rewrite Hcwd. cbn.
    rewrite (path_exists_no_error _ _ Hstat). cbn.
    rewrite Hspawn. cbn. rewrite Hcomm. cbn.
    by destruct (kill child).
Qed.

(** Scenario B of the specification, [sleep 5] under a deadline of one
    second; and slither at the laboratory checkout, which resolves to its
    package directory (see C10) and outlives its deadline after writing to
    both streams: the report shows neither. *)
Lemma C1_witness_sleep_and_slither_time_out :
  call_tool Lab.world "execute_command"
    {[ "command" := VStr "sleep 5"; "timeout" := VInt 1 ]}
  = ([ EvResolve "."; EvExists "/srv/audit";
       EvSpawn "sleep 5" (Some "/srv/audit") (DEFAULT_ENV Lab.world);
       EvCommunicate 4242 (VInt 1) (TimedOut "" "");
       EvKill 4242; EvWait 4242 ],
     Ok [ {| type := "text";
             text := "Error: Command timed out after 1 seconds" +:+ nl
                     +:+ "Command: sleep 5" |} ])
  ∧ communicate Lab.straggler (VInt 30) = TimedOut "analysing" "warning: slow"
  ∧ call_tool Lab.world "run_security_tool"
      {[ "tool_name" := VStr "Slither"; "arguments" := VStr ".";
         "timeout" := VInt 30 ]}
    = ([ EvExists "/home/auditor/tools/slither";
         EvExists "/home/auditor/tools/slither/slither/slither/py";
         EvExists "/home/auditor/tools/slither/slither/slither/py/__init__.py";
         EvExists "/home/auditor/tools/slither/slither";
         EvAccess "/home/auditor/tools/slither/slither";
         EvResolve "."; EvResolve "/home/auditor/tools/slither";
         EvExists "/home/auditor/tools/slither";
         EvSpawn "/home/auditor/tools/slither/slither ."
           (Some "/home/auditor/tools/slither") (DEFAULT_ENV Lab.world);
         EvCommunicate 4244 (VInt 30) (TimedOut "analysing" "warning: slow");
         EvKill 4244; EvWait 4244 ],
       Ok [ {| type := "text";
               text := "Error: Tool execution timed out after 30 seconds" +:+ nl
                       +:+ "Tool: slither" +:+ nl
                       +:+ "Command: /home/auditor/tools/slither/slither ." |} ]).
Proof.
  split; [|split; [reflexivity|]].
  - refine (eq_trans
              (proj1 (C1_timeout_kills_reaps_and_reports Lab.world
                        {[ "command" := VStr "sleep 5"; "timeout" := VInt 1 ]}
                        Lab.sleeper "" "" _)
                 "sleep 5" "." "/srv/audit" _ _ _ _ _ _) _);
      [ reflexivity | vm_compute; reflexivity | discriminate
      | vm_compute; reflexivity | reflexivity | reflexivity | reflexivity
      | vm_compute; reflexivity ].
  - refine (eq_trans
              (proj2 (C1_timeout_kills_reaps_and_reports Lab.world
                        {[ "tool_name" := VStr "Slither";
                           "arguments" := VStr "."; "timeout" := VInt 30 ]}
                        Lab.straggler "analysing" "warning: slow" _)
                 "Slither"
                 {| command := "/home/auditor/tools/slither/slither";
                    cwd := "/home/auditor/tools/slither";
                    description := "Slither static analyzer" |}
                 "." "/srv/audit" "/home/auditor/tools/slither"
                 _ _ _ _ _ _ _) _);
      [ reflexivity | vm_compute; reflexivity | vm_compute; reflexivity
      | vm_compute; reflexivity | reflexivity | reflexivity | reflexivity
      | vm_compute; reflexivity | vm_compute; reflexivity ].
Defined.

(** C1 as stated fails when the child ends on its own just as the wait is
    given up: [kill()] then raises [ProcessLookupError], whose message is
    empty; the child is not waited for, and the answer names neither the
    timeout nor, for run_security_tool, the command line. *)
Lemma C1_counterexample_kill_finds_no_process :
  communicate Field.late_finisher (VInt 1) = TimedOut "" ""
  ∧ call_tool Field.racing "execute_command"
      {[ "command" := VStr "sleep 1"; "timeout" := VInt 1 ]}
    = ([ EvResolve "."; EvExists "/srv/audit";
         EvSpawn "sleep 1" (Some "/srv/audit") (DEFAULT_ENV Field.racing);
         EvCommunicate 4246 (VInt 1) (TimedOut "" "");
         EvKill 4246 ],
       Ok [ {| type := "text";
               text := "Error executing command: " +:+ nl
                       +:+ "Command: sleep 1" |} ])
  ∧ call_tool Field.racing "run_security_tool"
      {[ "tool_name" := VStr "echidna"; "arguments" := VStr "--version";
         "timeout" := VInt 1 ]}
    = ([ EvExists "/home/auditor/tools/echidna";
         EvExists "/home/auditor/tools/echidna/echidna";
         EvExists "/home/auditor/tools/echidna/echidna";
         EvExists "/home/auditor/tools/echidna/bin/echidna";
         EvExists "/home/auditor/tools/echidna/bin/echidna";
         EvResolve "."; EvResolve "/home/auditor/tools/echidna";
         EvExists "/home/auditor/tools/echidna";
         EvSpawn "echidna-test --version" (Some "/home/auditor/tools/echidna")
           (DEFAULT_ENV Field.racing);
         EvCommunicate 4246 (VInt 1) (TimedOut "" "");
         EvKill 4246 ],
       Ok [ {| type := "text";
               text := "Error running security tool: " +:+ nl
                       +:+ "Tool: echidna" +:+ nl
                       +:+ "Arguments: --version" |} ]).
Proof. repeat split; vm_compute; reflexivity. Qed.

(** Scenario A of the specification: [echo hello] with the defaults. *)
Example execute_command_echo_hello :
  call_tool Lab.world "execute_command" {[ "command" := VStr "echo hello" ]}
  = ([ EvResolve "."; EvExists "/srv/audit";
       EvSpawn "echo hello" (Some "/srv/audit") (DEFAULT_ENV Lab.world);
       EvCommunicate 4243 (VInt 300) (Completed "hello" "" 0 Lab.disk) ],
     Ok [ {| type := "text";
             text := "Command: echo hello" +:+ nl
                     +:+ "Working Directory: /srv/audit" +:+ nl
                     +:+ "Exit Code: 0" +:+ nl
                     +:+ "==================================================" +:+ nl
                     +:+ "STDOUT:" +:+ nl +:+ "hello" +:+ nl |} ]).
Proof. vm_compute. reflexivity. Qed.

(** ** Exceptions that reach the caller *)

Lemma returns_text_result (s : string) : returns (text_result s).
Proof. by eexists. Qed.



Lemma returns_try_except {A} (m : M A) (h : exn → M A) :
  (∀ e, returns (h e)) → returns (try_except m h).
Proof. apply outcome_try_except_ok. Qed.

#[local] Hint Resolve returns_text_result : core.



(** The lookup of run_security_tool stands outside the [try] block: when
    an existence check of the lookup raises, the exception leaves
    [call_tool] as it is, after the probes made so far, and no text is
    returned. *)
Theorem run_security_tool_lookup_error_escapes
    (w : world) (arguments : gmap string value) (raw : string) (e : exn) :
  arg_get arguments "tool_name" (VStr "") = VStr raw →
  outcome_of (find_tool_executable w (lower raw)) = Raise e →
  call_tool w "run_security_tool" arguments
  = (trace_of (find_tool_executable w (lower raw)), Raise e).
Proof.
  intros Hraw Hraise.
  assert (Hne : lower raw ≠ "").
  { apply find_tool_executable_raises in Hraise as (config & p & Hcfg & _).
    by apply registered_name_nonempty in Hcfg. }
  unfold call_tool. cbn [String.eqb Ascii.eqb Bool.eqb].
  unfold run_security_tool. rewrite Hraw. cbn [value_lower].
  rewrite bind_ret_l, truthy_nonempty by done. cbn [negb].
  unfold find_tool_or_alias.
  destruct (find_tool_executable w (lower raw)) as [t o].
  cbn in Hraise. subst o. reflexivity.
Qed.

(** medusa behind a directory that may not be searched. *)
Lemma run_security_tool_lookup_error_witness :
  call_tool Field.locked "run_security_tool"
    {[ "tool_name" := VStr "Medusa"; "arguments" := VStr "fuzz" ]}
  = ([ EvExists "/home/auditor/tools/medusa";
       EvExists "/home/auditor/tools/medusa/-m" ],
     Raise (Exn PermissionError
              "[Errno 13] Permission denied: '/home/auditor/tools/medusa/-m'")).
Proof.
  refine (eq_trans
            (run_security_tool_lookup_error_escapes Field.locked
               {[ "tool_name" := VStr "Medusa"; "arguments" := VStr "fuzz" ]}
               "Medusa"
               (Exn PermissionError
                  "[Errno 13] Permission denied: '/home/auditor/tools/medusa/-m'")
               _ _) _);
    vm_compute; reflexivity.
Defined.

(** C3, evaluated: a tool name that is not a string makes run_security_tool
    raise [AttributeError] before its [try] block is entered, so the handler
    returns no text result and the exception reaches the caller, whatever
    the world. *)
Theorem C3_run_security_tool_raises_on_integer_tool_name (w : world) :
  call_tool w "run_security_tool"
    {[ "tool_name" := VInt 5; "arguments" := VStr "." ]}
  = ([], Raise (Exn AttributeError "'int' object has no attribute 'lower'")).
Proof. reflexivity. Qed.

(** ** The service status report *)

(** C8, as the code has it: whatever the two HTTP probes do (answer, raise,
    or answer with something that is not JSON), both are made and the
    scanner binary is looked for.  When that existence check answers, the
    one text returned carries a SmartBERT line, a web3-sekit line and a
    scanner line, in this order.  When it raises, the text is the single
    line of the outer handler, and what the two HTTP probes found is not
    in it. *)
Theorem C8_status_reports_all_three_results
    (w : world) (arguments : gmap string value) :
  ∃ smartbert_url web3sekit_url smartbert detail web3sekit scanner,
    smartbert_url = default "http://localhost:9900" (DEFAULT_ENV w !! "SMARTBERT_API")
    ∧ web3sekit_url = default "http://localhost:8081" (DEFAULT_ENV w !! "WEB3_SEKIT_API")
    ∧ call_tool w "check_web3se_status" arguments
      = ([ EvUrlopen smartbert_url;
           EvUrlopen web3sekit_url;
           EvExists (WEB3SE_LAB_DIR w </> "web3-scanner") ],
         Ok [ {| type := "text";
                 text := match fs_error (fs w)
                                 (WEB3SE_LAB_DIR w </> "web3-scanner") with
                         | None =>
                             "web3se-lab Service Status:" +:+ nl
                             +:+ join nl (smartbert :: detail
                                          ++ [web3sekit; scanner])%list
                         | Some e =>
                             "Error checking web3se-lab status: "
                             +:+ exn_msg e
                         end |} ])
    ∧ smartbert
      = match urlopen w smartbert_url with
        | inl _ => "❌ SmartBERT API: Not running at " +:+ smartbert_url
        | inr body =>
            match json_loads w body with
            | inl _ => "❌ SmartBERT API: Not running at " +:+ smartbert_url
            | inr _ => "✅ SmartBERT API: Running at " +:+ smartbert_url
            end
        end
    ∧ web3sekit
      = match urlopen w web3sekit_url with
        | inl _ => "❌ web3-sekit API: Not running at " +:+ web3sekit_url
        | inr _ => "✅ web3-sekit API: Running at " +:+ web3sekit_url
        end
    ∧ scanner
      = if fs_exists (fs w) (WEB3SE_LAB_DIR w </> "web3-scanner")
        then "✅ web3-scanner CLI: Available at "
             +:+ (WEB3SE_LAB_DIR w </> "web3-scanner")
        else "❌ web3-scanner CLI: Not found at "
             +:+ (WEB3SE_LAB_DIR w </> "web3-scanner").
Proof.
  unfold call_tool. cbn [String.eqb Ascii.eqb Bool.eqb].
  unfold check_web3se_status.
  generalize (WEB3SE_LAB_DIR w </> "web3-scanner") as scanner_path.
  generalize (default "http://localhost:9900" (DEFAULT_ENV w !! "SMARTBERT_API"))
    as url1.
  generalize (default "http://localhost:8081" (DEFAULT_ENV w !! "WEB3_SEKIT_API"))
    as url2.
  intros url2 url1 scanner_path. exists url1, url2. eexists.
  exists (match urlopen w url1 with
          | inl e => ["   Error: " +:+ exn_msg e]
          | inr body =>
              match json_loads w body with
              | inl e => ["   Error: " +:+ exn_msg e]
              | inr (JsonDict model) => ["   Model: " +:+ model]
              | inr JsonOther => []
              end
          end).
  do 2 eexists.
  split; [reflexivity|]. split; [reflexivity|].
  split; [|split; [reflexivity|split; reflexivity]].
  unfold probe_exists, path_exists, fs_error, fs_exists.
  destruct (urlopen w url1) as [e1|body];
    [|destruct (json_loads w body) as [e|[model|]]];
    destruct (urlopen w url2) as [e2|body2];
    destruct (fs w scanner_path);
    reflexivity.
Qed.

(** C8 as stated fails when the existence check itself raises: with both
    services answering and the web3se-lab directory closed to searches,
    the report is one line about the failed check, and says nothing of
    either service. *)
Lemma C8_counterexample_scanner_check_raises :
  urlopen Field.locked "http://localhost:9900" = inr "{}"
  ∧ urlopen Field.locked "http://localhost:8081" = inr "{}"
  ∧ call_tool Field.locked "check_web3se_status" ∅
    = ([ EvUrlopen "http://localhost:9900";
         EvUrlopen "http://localhost:8081";
         EvExists "/home/auditor/tools/web3se-lab/web3-scanner" ],
       Ok [ {| type := "text";
               text := "Error checking web3se-lab status: [Errno 13] Permission denied: '/home/auditor/tools/web3se-lab/web3-scanner'" |} ]).
Proof. repeat split; vm_compute; reflexivity. Qed.

(** Scenario D of the specification: neither service is listening. *)
Example check_web3se_status_nothing_listening :
  call_tool Lab.world "check_web3se_status" ∅
  = ([ EvUrlopen "http://localhost:9900";
       EvUrlopen "http://localhost:8081";
       EvExists "/home/auditor/tools/web3se-lab/web3-scanner" ],
     Ok [ {| type := "text";
             text := "web3se-lab Service Status:" +:+ nl
                     +:+ "❌ SmartBERT API: Not running at http://localhost:9900" +:+ nl
                     +:+ "   Error: <urlopen error [Errno 111] Connection refused>" +:+ nl
                     +:+ "❌ web3-sekit API: Not running at http://localhost:8081" +:+ nl
                     +:+ "✅ web3-scanner CLI: Available at /home/auditor/tools/web3se-lab/web3-scanner" |} ]).
Proof. vm_compute. reflexivity. Qed.

(** ** The scanner command line *)

Lemma string_app_nil_r (s : string) : s +:+ "" = s.
Proof.
  induction s as [|c s IH]; [reflexivity|].
  change (String c (s +:+ "") = String c s). by rewrite IH.
Qed.

(** The words joined by the code spell the command line of the
    specification. *)
Lemma join_scan_cmd_parts (scanner repository_path output_file : string)
    (with_intent with_embed : value) :
  join_values 0 (scan_cmd_parts scanner (VStr repository_path) with_intent
                   with_embed (VStr output_file))
  = ret ([scanner; "scan"; repository_path]
         ++ (if truthy with_intent then ["--intent"] else [])
         ++ (if truthy with_embed then ["--embed"] else [])
         ++ (if truthy (VStr output_file) then ["--output"; output_file] else []))%list
  ∧ join " " ([scanner; "scan"; repository_path]
              ++ (if truthy with_intent then ["--intent"] else [])
              ++ (if truthy with_embed then ["--embed"] else [])
              ++ (if truthy (VStr output_file)
                  then ["--output"; output_file] else []))%list
    = spec_scan_command_line scanner repository_path (truthy with_intent)
        (truthy with_embed) output_file.
Proof.
  unfold scan_cmd_parts, spec_scan_command_line.
  destruct (truthy with_intent), (truthy with_embed), output_file as [|c o];
    (split; [reflexivity|]); cbn [truthy String.eqb negb app join];
    try reflexivity.
  change ("" +:+ "" +:+ "") with "". by rewrite string_app_nil_r.
Qed.




(** ** The working directory of run_security_tool *)




Lemma run_security_tool_working_directory_default
    (w : world) (arguments : gmap string value) :
  run_security_tool w (delete "working_directory" arguments)
  = run_security_tool w (<["working_directory" := VStr "."]> arguments).
Proof.
  unfold run_security_tool, arg_get.
  rewrite lookup_delete_eq, lookup_insert_eq.
  by rewrite !lookup_delete_ne, !lookup_insert_ne by discriminate.
Qed.






(** * Further properties of the dispatcher *)

(** ** What the operations return *)

Lemma returns_only_ret {A} (P : A → Prop) (a : A) : P a → returns_only P (ret a).
Proof. intros H b [= <-]. exact H. Qed.

Lemma returns_only_raise {A} (P : A → Prop) (e : exn) : returns_only P (raise e).
Proof. intros b [=]. Qed.

Lemma returns_only_bind {A B} (P : B → Prop) (m : M A) (k : A → M B) :
  (∀ a, returns_only P (k a)) → returns_only P (bind m k).
Proof.
  intros Hk b. rewrite outcome_bind.
  destruct (outcome_of m) as [a|e]; [apply Hk|discriminate].
Qed.

Lemma returns_only_try_except {A} (P : A → Prop) (m : M A) (h : exn → M A) :
  returns_only P m → (∀ e, returns_only P (h e)) →
  returns_only P (try_except m h).
Proof.
  intros Hm Hh b. destruct m as [t [a|e]]; cbn.
  - apply Hm.
  - specialize (Hh e b). destruct (h e) as [t' r]. exact Hh.
Qed.

(** One step of a proof about what a computation returns: through binds
    and handlers down to the places where a value is produced. *)
Ltac returns_step :=
  first
    [ solve [auto]
    | apply returns_only_raise
    | apply returns_only_bind; intros ?
    | apply returns_only_try_except; [|intros ?]
    | match goal with
      | |- returns_only _ (let '(_, _) := ?x in _) => destruct x
      | |- returns_only _ (match ?x with _ => _ end) => destruct x
      end ].

Ltac returns_auto := repeat returns_step.

Lemma text_result_single (s : string) : returns_only single_text (text_result s).
Proof. apply returns_only_ret. by exists s. Qed.

Lemma check_web3se_status_single (w : world) :
  returns_only single_text (check_web3se_status w).
Proof.
  pose proof text_result_single.
  unfold check_web3se_status. returns_auto.
Qed.

(** Whatever the operation and the arguments, a call that returns, returns
    exactly one block, of type text. *)
Theorem call_tool_returns_one_text_block
    (w : world) (name : string) (arguments : gmap string value) :
  returns_only single_text (call_tool w name arguments).
Proof.
  pose proof text_result_single. pose proof (check_web3se_status_single w).
  unfold call_tool, execute_command, check_tool_available, run_security_tool,
    launch_tool, web3_scanner_scan, start_web3se_services.
  returns_auto.
Qed.

(** ** Advertised and handled operations *)

Ltac text_not_U :=
  unfold text_result; apply returns_only_ret; eexists _, _;
  split; [reflexivity|discriminate].

Ltac not_U_step :=
  first
    [ solve [auto]
    | text_not_U
    | apply returns_only_raise
    | apply returns_only_bind; intros ?
    | apply returns_only_try_except; [|intros ?]
    | match goal with
      | |- returns_only _ (let '(_, _) := ?x in _) => destruct x
      | |- returns_only _ (match ?x with _ => _ end) => destruct x
      end ].

Lemma check_web3se_status_not_U (w : world) :
  returns_only text_not_starting_with_U (check_web3se_status w).
Proof. unfold check_web3se_status. repeat not_U_step. Qed.

Lemma handlers_not_U (w : world) (arguments : gmap string value) :
  returns_only text_not_starting_with_U (execute_command w arguments)
  ∧ returns_only text_not_starting_with_U (check_tool_available w arguments)
  ∧ returns_only text_not_starting_with_U (run_security_tool w arguments)
  ∧ returns_only text_not_starting_with_U (web3_scanner_scan w arguments)
  ∧ returns_only text_not_starting_with_U (start_web3se_services w arguments).
Proof.
  pose proof (check_web3se_status_not_U w).
  unfold execute_command, check_tool_available, run_security_tool,
    launch_tool, web3_scanner_scan, start_web3se_services.
  repeat split; repeat not_U_step.
Qed.

(** The names [call_tool] treats as unknown are exactly the names that
    [list_tools] does not advertise (names are compared as they are, with
    their case): for those the answer is the unknown-tool text and nothing
    is touched; for an advertised name the answer is never that text. *)
Theorem unknown_tool_iff_not_advertised
    (w : world) (name : string) (arguments : gmap string value) :
  (¬ In name (map Mcp.name list_tools) →
     call_tool w name arguments
     = ([], Ok [ {| type := "text"; text := "Unknown tool: " +:+ name |} ]))
  ∧ (In name (map Mcp.name list_tools) →
       outcome_of (call_tool w name arguments)
       ≠ Ok [ {| type := "text"; text := "Unknown tool: " +:+ name |} ]).
Proof.
  split.
  - intros Hnot. cbn in Hnot. unfold call_tool.
    repeat match goal with
           | |- context [String.eqb name ?lit] =>
               destruct (String.eqb_spec name lit) as [->|_]; [tauto|]
           end.
    reflexivity.
  - intros Hin Hout.
    destruct (handlers_not_U w arguments) as (He & Hc & Hr & Hs & Hst).
    pose proof (check_web3se_status_not_U w) as Hstat.
    cbn in Hin.
    destruct Hin as [<-|[<-|[<-|[<-|[<-|[<-|[]]]]]]];
      unfold call_tool in Hout; cbn [String.eqb Ascii.eqb Bool.eqb] in Hout;
      [apply He in Hout | apply Hr in Hout | apply Hc in Hout
      | apply Hs in Hout | apply Hst in Hout | apply Hstat in Hout ];
      destruct Hout as (c & rest & [= <- _] & Hc'); by apply Hc'.
Qed.

(** A name in another case is not advertised; an advertised one is handled. *)
Lemma unknown_tool_witness :
  call_tool Lab.world "Execute_Command" {[ "command" := VStr "id" ]}
  = ([], Ok [ {| type := "text"; text := "Unknown tool: Execute_Command" |} ])
  ∧ outcome_of (call_tool Lab.world "check_web3se_status" ∅)
    ≠ Ok [ {| type := "text"; text := "Unknown tool: check_web3se_status" |} ].
Proof.
  destruct (unknown_tool_iff_not_advertised Lab.world "Execute_Command"
              {[ "command" := VStr "id" ]}) as [Hunknown _].
  destruct (unknown_tool_iff_not_advertised Lab.world "check_web3se_status" ∅)
    as [_ Hknown].
  split.
  - apply Hunknown. cbn. intros H.
    repeat (destruct H as [H|H]; [discriminate H|]). destruct H.
  - apply Hknown. cbn. tauto.
Defined.


(** ** Advertised defaults *)

(** An optional argument left out behaves as the default that [list_tools]
    advertises for it: putting the advertised default into the bag changes
    neither the trace nor the answer. *)
Theorem advertised_default_is_the_default_used
    (w : world) (tool : Mcp.Tool) (key : string) (schema : Mcp.PropertySchema)
    (dflt : value) (arguments : gmap string value) :
  In tool list_tools →
  In (key, schema) (Mcp.properties (Mcp.inputSchema tool)) →
  Mcp.prop_default schema = Some dflt →
  arguments !! key = None →
  call_tool w (Mcp.name tool) (<[key := dflt]> arguments)
  = call_tool w (Mcp.name tool) arguments.
Proof.
  intros Htool Hkey Hdflt Habsent. cbn in Htool.
  destruct Htool as [<-|[<-|[<-|[<-|[<-|[<-|[]]]]]]]; cbn in Hkey;
    repeat (destruct Hkey as [[= <- <-]|Hkey]; [cbn in Hdflt|]);
    try destruct Hkey; try discriminate Hdflt;
    injection Hdflt as <-;
    unfold call_tool; cbn [Mcp.name String.eqb Ascii.eqb Bool.eqb];
    unfold execute_command, run_security_tool, web3_scanner_scan,
      start_web3se_services, arg_get;
    rewrite ?lookup_insert_eq, ?Habsent;
    rewrite ?lookup_insert_ne by discriminate;
    reflexivity.
Qed.

(** The deadline of execute_command: leaving it out is asking for 300. *)
Lemma advertised_default_witness_timeout :
  call_tool Lab.world "execute_command"
    (<["timeout" := VInt 300]> {[ "command" := VStr "sleep 5" ]})
  = call_tool Lab.world "execute_command" {[ "command" := VStr "sleep 5" ]}.
Proof.
  apply (advertised_default_is_the_default_used Lab.world
           (hd (Mcp.mkTool "" "" (Mcp.mkSchema "" [] None)) list_tools)
           "timeout"
           (Mcp.mkProperty "integer" "Timeout in seconds (default: 300)"
              (Some (VInt 300)))).
  - left. reflexivity.
  - cbn. right. right. left. reflexivity.
  - reflexivity.
  - vm_compute. reflexivity.
Defined.

(** ** Children started by a request *)

Lemma commands_started_app (t1 t2 : list event) :
  commands_started (t1 ++ t2)%list
  = (commands_started t1 ++ commands_started t2)%list.
Proof. apply omap_app. Qed.

Lemma no_child_started (t : list event) :
  Forall no_child t → commands_started t = [].
Proof.
  induction 1 as [|ev t Hev _ IH]; [reflexivity|].
  unfold commands_started in *. cbn. by rewrite Hev, IH.
Qed.

Lemma probe_only_no_child (ev : event) : probe_only ev → no_child ev.
Proof. by destruct ev. Qed.

Lemma probe_only_lookup_only (ev : event) : probe_only ev → lookup_only ev.
Proof. by destruct ev. Qed.

Lemma quiet_at_most_one {A} (m : M A) :
  Forall no_child (trace_of m) →
  (List.length (commands_started (trace_of m)) ≤ 1)%nat.
Proof. intros H. rewrite (no_child_started _ H). cbn. lia. Qed.

Lemma at_most_one_bind_quiet_first {A B} (m : M A) (k : A → M B) :
  Forall no_child (trace_of m) →
  (∀ a, (List.length (commands_started (trace_of (k a))) ≤ 1)%nat) →
  (List.length (commands_started (trace_of (bind m k))) ≤ 1)%nat.
Proof.
  intros Hm Hk. rewrite trace_bind, commands_started_app, length_app.
  rewrite (no_child_started _ Hm). cbn.
  destruct (outcome_of m); [apply Hk|cbn; lia].
Qed.

Lemma at_most_one_bind_quiet_rest {A B} (m : M A) (k : A → M B) :
  (List.length (commands_started (trace_of m)) ≤ 1)%nat →
  (∀ a, Forall no_child (trace_of (k a))) →
  (List.length (commands_started (trace_of (bind m k))) ≤ 1)%nat.
Proof.
  intros Hm Hk. rewrite trace_bind, commands_started_app, length_app.
  destruct (outcome_of m) as [a|e]; [rewrite (no_child_started _ (Hk a))|];
    cbn; lia.
Qed.

Lemma at_most_one_try_except {A} (m : M A) (h : exn → M A) :
  (List.length (commands_started (trace_of m)) ≤ 1)%nat →
  (∀ e, Forall no_child (trace_of (h e))) →
  (List.length (commands_started (trace_of (try_except m h))) ≤ 1)%nat.
Proof.
  intros Hm Hh. destruct m as [t [a|e]]; cbn in *; [exact Hm|].
  specialize (Hh e). destruct (h e) as [t' r]; cbn in *.
  rewrite commands_started_app, length_app, (no_child_started _ Hh).
  unfold commands_started in *. cbn. lia.
Qed.

Lemma spawn_at_most_one (w : world) (cmd : value) (dir : option string)
    (env : gmap string string) :
  (List.length (commands_started (trace_of (spawn w cmd dir env))) ≤ 1)%nat.
Proof.
  unfold spawn. destruct cmd; cbn; try lia.
  destruct (create_subprocess_shell w s dir env); cbn; lia.
Qed.

Section QuietParts.

Variable w : world.

Lemma find_tool_executable_quiet tool_name :
  Forall no_child (trace_of (find_tool_executable w tool_name)).
Proof.
  eapply Forall_impl; [apply find_tool_executable_probes|].
  apply probe_only_no_child.
Qed.

Lemma find_tool_or_alias_quiet tool_name :
  Forall no_child (trace_of (find_tool_or_alias w tool_name)).
Proof.
  eapply Forall_impl; [apply find_tool_or_alias_probes|].
  apply probe_only_no_child.
Qed.

Lemma search_tool_dirs_quiet tool_name tool_dirs :
  Forall no_child (trace_of (search_tool_dirs w tool_name tool_dirs)).
Proof.
  eapply Forall_impl; [apply search_tool_dirs_probes|].
  apply probe_only_no_child.
Qed.

Lemma join_values_quiet i parts :
  Forall no_child (trace_of (join_values i parts)).
Proof.
  revert i. induction parts as [|v rest IH]; intros i; cbn [join_values];
    [apply Forall_nil_2|].
  destruct v; trace_auto.
Qed.

Lemma check_web3se_status_quiet :
  Forall no_child (trace_of (check_web3se_status w)).
Proof. unfold check_web3se_status, probe_exists, text_result. trace_auto. Qed.

Lemma text_result_quiet s : Forall no_child (trace_of (text_result s)).
Proof. apply Forall_nil_2. Qed.

End QuietParts.

(** One step of a proof that a computation starts at most one child: the
    part before the spawn and the part after it start none. *)
Ltac one_child_step :=
  first
    [ solve [auto]
    | apply quiet_at_most_one; solve [trace_auto]
    | apply at_most_one_try_except; [|intros ?; solve [trace_auto]]
    | apply at_most_one_bind_quiet_first; [solve [trace_auto]|intros ?]
    | apply at_most_one_bind_quiet_rest; [|intros ?; solve [trace_auto]]
    | match goal with
      | |- (List.length (commands_started (trace_of (match ?x with _ => _ end))) ≤ 1)%nat =>
          destruct x
      end ].

(** No request starts more than one shell child. *)
Theorem call_tool_starts_at_most_one_child
    (w : world) (name : string) (arguments : gmap string value) :
  (List.length (commands_started (trace_of (call_tool w name arguments))) ≤ 1)%nat.
Proof.
  pose proof (find_tool_executable_quiet w).
  pose proof (find_tool_or_alias_quiet w).
  pose proof (search_tool_dirs_quiet w).
  pose proof join_values_quiet.
  pose proof (check_web3se_status_quiet w).
  pose proof text_result_quiet.
  pose proof (spawn_at_most_one w).
  unfold call_tool, execute_command, check_tool_available, run_security_tool,
    launch_tool, web3_scanner_scan, start_web3se_services,
    path_resolve, value_lower, wait_for_communicate, kill_and_reap,
    probe_exists, path_of.
  repeat one_child_step.
Qed.

(** check_tool_available only looks: besides the one [which] call it makes
    filesystem probes, and nothing else; it starts no shell, requests no
    URL and kills nothing. *)
Theorem check_tool_available_only_looks
    (w : world) (arguments : gmap string value) :
  Forall lookup_only (trace_of (call_tool w "check_tool_available" arguments)).
Proof.
  assert (Hfind : ∀ n, Forall lookup_only (trace_of (find_tool_executable w n))).
  { intros n. eapply Forall_impl; [apply find_tool_executable_probes|].
    apply probe_only_lookup_only. }
  assert (Hsearch : ∀ n ds,
            Forall lookup_only (trace_of (search_tool_dirs w n ds))).
  { intros n ds. eapply Forall_impl; [apply search_tool_dirs_probes|].
    apply probe_only_lookup_only. }
  unfold call_tool. cbn [String.eqb Ascii.eqb Bool.eqb].
  unfold check_tool_available, text_result. trace_auto.
Qed.

(** ** execute_command *)

(** A working directory that does not exist is reported under its resolved
    name, after the two lookups that found it missing; no child is
    started. *)
Theorem execute_command_missing_directory
    (w : world) (arguments : gmap string value) (s d : string) :
  truthy (arg_get arguments "command" (VStr "")) = true →
  arg_get arguments "working_directory" (VStr ".") = VStr s →
  expand_resolve w s = inr d →
  fs w d = NoEntry →
  call_tool w "execute_command" arguments
  = ([EvResolve s; EvExists d],
     Ok [ {| type := "text";
             text := "Error: Working directory does not exist: " +:+ d |} ]).
Proof.
  intros Hcmd Hwd Hres Hmissing.
  unfold call_tool. cbn [String.eqb Ascii.eqb Bool.eqb].
  unfold execute_command. rewrite Hcmd, Hwd. cbn [negb].
  apply path_exists_absent in Hmissing.
  unfold path_resolve, probe_exists. cbn. rewrite Hres. cbn.
  by rewrite Hmissing.
Qed.

Lemma execute_command_missing_directory_witness :
  call_tool Lab.world "execute_command"
    {[ "command" := VStr "ls"; "working_directory" := VStr "/nowhere" ]}
  = ([EvResolve "/nowhere"; EvExists "/nowhere"],
     Ok [ {| type := "text";
             text := "Error: Working directory does not exist: /nowhere" |} ]).
Proof.
  apply (execute_command_missing_directory Lab.world
           {[ "command" := VStr "ls"; "working_directory" := VStr "/nowhere" ]}
           "/nowhere" "/nowhere");
    vm_compute; reflexivity.
Defined.

(** A command that ends in time is reported with its resolved directory
    and its exit status in decimal; each stream gets a section only when
    it is not empty; the child is neither killed nor waited for again. *)
Theorem execute_command_completed_report
    (w : world) (arguments : gmap string value) (cmd s d : string)
    (child : process) (out err : string) (rc : Z) (after : filesystem) :
  arg_get arguments "command" (VStr "") = VStr cmd →
  cmd ≠ "" →
  arg_get arguments "working_directory" (VStr ".") = VStr s →
  expand_resolve w s = inr d →
  fs_exists (fs w) d = true →
  create_subprocess_shell w cmd (Some d) (DEFAULT_ENV w) = Spawned child →
  communicate child (arg_get arguments "timeout" (VInt 300))
  = Completed out err rc after →
  call_tool w "execute_command" arguments
  = ([ EvResolve s; EvExists d; EvSpawn cmd (Some d) (DEFAULT_ENV w);
       EvCommunicate (pid child) (arg_get arguments "timeout" (VInt 300))
         (Completed out err rc after) ],
     Ok [ {| type := "text";
             text := "Command: " +:+ cmd +:+ nl
                     +:+ "Working Directory: " +:+ d +:+ nl
                     +:+ "Exit Code: " +:+ pretty rc +:+ nl
                     +:+ "==================================================" +:+ nl
                     +:+ (if String.eqb out "" then ""
                          else "STDOUT:" +:+ nl +:+ out +:+ nl)
                     +:+ (if String.eqb err "" then ""
                          else "STDERR:" +:+ nl +:+ err +:+ nl) |} ]).
Proof.
  intros Hcmd Hne Hwd Hres Hexists Hspawn Hcomm.
  unfold call_tool. cbn [String.eqb Ascii.eqb Bool.eqb].
  unfold execute_command. rewrite Hcmd, Hwd, truthy_nonempty by done.
  rewrite prepare_env_DEFAULT_ENV. cbn [negb].
  apply path_exists_found in Hexists.
  unfold path_resolve, probe_exists, spawn, wait_for_communicate.
  cbn. rewrite Hres. cbn. rewrite Hexists. cbn. rewrite Hspawn. cbn.
  rewrite Hcomm. cbn.
  unfold format_streams. cbn [truthy].
  by destruct (String.eqb out ""), (String.eqb err "").
Qed.

(** The exit status 3 of the scanning world, with one stream empty. *)
Lemma execute_command_completed_witness :
  call_tool Field.scanning "execute_command" {[ "command" := VStr "exit 3" ]}
  = ([ EvResolve "."; EvExists "/srv/audit";
       EvSpawn "exit 3" (Some "/srv/audit") (DEFAULT_ENV Field.scanning);
       EvCommunicate 4245 (VInt 300)
         (Completed "2 findings" "" 3 Field.disk_after_scan) ],
     Ok [ {| type := "text";
             text := "Command: exit 3" +:+ nl
                     +:+ "Working Directory: /srv/audit" +:+ nl
                     +:+ "Exit Code: 3" +:+ nl
                     +:+ "==================================================" +:+ nl
                     +:+ "STDOUT:" +:+ nl +:+ "2 findings" +:+ nl |} ]).
Proof.
  refine (eq_trans
            (execute_command_completed_report Field.scanning
               {[ "command" := VStr "exit 3" ]} "exit 3" "." "/srv/audit"
               Field.scanner_run "2 findings" "" 3 Field.disk_after_scan
               _ _ _ _ _ _ _) _);
    [ vm_compute; reflexivity | discriminate | vm_compute; reflexivity
    | vm_compute; reflexivity | vm_compute; reflexivity | reflexivity
    | reflexivity | vm_compute; reflexivity ].
Defined.

(** Whatever goes wrong between resolving the directory and the end of the
    wait (the path cannot be resolved, the shell cannot be started, the
    wait raises) comes back as one text with the message of the exception
    and the command; nothing is killed. *)
Theorem execute_command_failure_report
    (w : world) (arguments : gmap string value) (cmd s : string) (e : exn) :
  arg_get arguments "command" (VStr "") = VStr cmd →
  cmd ≠ "" →
  arg_get arguments "working_directory" (VStr ".") = VStr s →
  (expand_resolve w s = inl e
   ∨ ∃ d, expand_resolve w s = inr d ∧ fs_exists (fs w) d = true
          ∧ (create_subprocess_shell w cmd (Some d) (DEFAULT_ENV w)
             = SpawnFailed e
             ∨ ∃ child,
                 create_subprocess_shell w cmd (Some d) (DEFAULT_ENV w)
                 = Spawned child
                 ∧ communicate child (arg_get arguments "timeout" (VInt 300))
                   = CommError e)) →
  outcome_of (call_tool w "execute_command" arguments)
  = Ok [ {| type := "text";
            text := "Error executing command: " +:+ exn_msg e +:+ nl
                    +:+ "Command: " +:+ cmd |} ]
  ∧ Forall (λ ev, ∀ p, ev ≠ EvKill p)
      (trace_of (call_tool w "execute_command" arguments)).
Proof.
  intros Hcmd Hne Hwd Hfail.
  unfold call_tool. cbn [String.eqb Ascii.eqb Bool.eqb].
  unfold execute_command. rewrite Hcmd, Hwd, truthy_nonempty by done.
  rewrite prepare_env_DEFAULT_ENV. cbn [negb].
  unfold path_resolve, probe_exists, spawn, wait_for_communicate.
  destruct Hfail as [Hres|(d & Hres & Hexists & [Hspawn|(child & Hspawn & Hcomm)])];
    try apply path_exists_found in Hexists;
    cbn; rewrite Hres; cbn; rewrite ?Hexists; cbn; rewrite ?Hspawn; cbn;
    rewrite ?Hcomm; cbn; (split; [reflexivity|]);
    repeat constructor; discriminate.
Qed.

Lemma execute_command_failure_witness :
  outcome_of (call_tool Field.outage "execute_command"
                {[ "command" := VStr "forge build" ]})
  = Ok [ {| type := "text";
            text := "Error executing command: [Errno 13] Permission denied: '/bin/sh'"
                    +:+ nl +:+ "Command: forge build" |} ].
Proof.
  refine (proj1 (execute_command_failure_report Field.outage
                   {[ "command" := VStr "forge build" ]} "forge build" "."
                   (Exn OSError "[Errno 13] Permission denied: '/bin/sh'")
                   _ _ _ _));
    [ vm_compute; reflexivity | discriminate | vm_compute; reflexivity |].
  right. exists "/srv/audit".
  split; [vm_compute; reflexivity|]. split; [vm_compute; reflexivity|].
  left. reflexivity.
Defined.

(** The child of execute_command is what the caller asked for: the command
    word for word, in the resolved working directory, which exists, under
    [DEFAULT_ENV]. *)
Theorem execute_command_child_as_asked
    (w : world) (arguments : gmap string value)
    (cmd : string) (dir : option string) (env : gmap string string) :
  In (cmd, dir, env)
     (commands_started (trace_of (call_tool w "execute_command" arguments))) →
  arg_get arguments "command" (VStr "") = VStr cmd
  ∧ env = DEFAULT_ENV w
  ∧ ∃ s d,
      arg_get arguments "working_directory" (VStr ".") = VStr s
      ∧ expand_resolve w s = inr d
      ∧ dir = Some d
      ∧ fs_exists (fs w) d = true.
Proof.
  unfold call_tool. cbn [String.eqb Ascii.eqb Bool.eqb].
  unfold execute_command. rewrite prepare_env_DEFAULT_ENV.
  generalize (arg_get arguments "timeout" (VInt 300)) as t.
  generalize (arg_get arguments "working_directory" (VStr ".")) as wd.
  generalize (arg_get arguments "command" (VStr "")) as c.
  intros c wd t.
  destruct (truthy c) eqn:Hc; cbn [negb]; [|intros []].
  unfold path_resolve.
  destruct wd as [| | |s|]; try (intros []).
  cbn. destruct (expand_resolve w s) as [e|d] eqn:Hres; cbn; [intros []|].
  destruct (path_exists (fs w) d) as [[]|e] eqn:Hexists; cbn;
    [|intros []|intros []].
  apply path_exists_answer in Hexists as [Hexists _].
  unfold spawn. destruct c as [| | |c|]; cbn; try (intros []).
  assert (Hgoal : (c, Some d, DEFAULT_ENV w) = (cmd, dir, env) →
            VStr c = VStr cmd ∧ env = DEFAULT_ENV w
            ∧ ∃ s0 d0, VStr s = VStr s0 ∧ expand_resolve w s0 = inr d0
                       ∧ dir = Some d0 ∧ fs_exists (fs w) d0 = true).
  { intros [= <- <- <-]. split; [done|]. split; [done|]. by exists s, d. }
  destruct (create_subprocess_shell w c (Some d) (DEFAULT_ENV w))
    as [e|child]; cbn.
  { intros [H|[]]. by apply Hgoal. }
  unfold wait_for_communicate, kill_and_reap.
  destruct (communicate child t); cbn; try destruct (kill child); cbn;
    intros [H|[]]; by apply Hgoal.
Qed.

Lemma execute_command_child_witness :
  arg_get ({[ "command" := VStr "echo hello" ]} : gmap string value)
    "command" (VStr "") = VStr "echo hello"
  ∧ fs_exists (fs Lab.world) "/srv/audit" = true.
Proof.
  destruct (execute_command_child_as_asked Lab.world
              {[ "command" := VStr "echo hello" ]}
              "echo hello" (Some "/srv/audit") (DEFAULT_ENV Lab.world))
    as (Hcmd & _ & s & d & _ & _ & [= <-] & Hexists).
  - vm_compute. left. reflexivity.
  - split; [exact Hcmd|exact Hexists].
Defined.

(** ** run_security_tool *)

Lemma lower_ascii_idempotent (c : ascii) :
  lower_ascii (lower_ascii c) = lower_ascii c.
Proof. destruct c as [[] [] [] [] [] [] [] []]; reflexivity. Qed.

Lemma lower_idempotent (s : string) : lower (lower s) = lower s.
Proof.
  induction s as [|c s IH]; [reflexivity|].
  cbn [lower]. by rewrite lower_ascii_idempotent, IH.
Qed.

(** The tool name is matched without regard to case: the name as given and
    its lower-case form give the same trace and the same answer. *)
Theorem run_security_tool_ignores_case
    (w : world) (arguments : gmap string value) (raw : string) :
  call_tool w "run_security_tool" (<["tool_name" := VStr raw]> arguments)
  = call_tool w "run_security_tool"
      (<["tool_name" := VStr (lower raw)]> arguments).
Proof.
  unfold call_tool. cbn [String.eqb Ascii.eqb Bool.eqb].
  unfold run_security_tool, arg_get.
  rewrite !lookup_insert_eq. rewrite !lookup_insert_ne by discriminate.
  cbn [default from_option id value_lower]. by rewrite lower_idempotent.
Qed.

(** The second lookup under the name [securify2] never rescues a failed
    lookup of [securify]: both names are registered with the same
    directory, so the outcome is that of the first lookup. *)
Theorem alias_retry_changes_nothing (w : world) (tool_name : string) :
  outcome_of (find_tool_or_alias w tool_name)
  = outcome_of (find_tool_executable w tool_name).
Proof. apply find_tool_or_alias_outcome. Qed.

(** The two spellings of securify are missed together: the lookup answers
    [None] for one exactly when it does for the other.  When both are
    found they name the same installation directory and description. *)
Theorem securify_alias_same_installation (w : world) :
  (outcome_of (find_tool_executable w "securify") = Ok None
   ↔ outcome_of (find_tool_executable w "securify2") = Ok None)
  ∧ (∀ a b,
       outcome_of (find_tool_executable w "securify") = Ok (Some a) →
       outcome_of (find_tool_executable w "securify2") = Ok (Some b) →
       cwd a = TOOLS_DIR w </> "securify2"
       ∧ cwd b = cwd a
       ∧ description b = description a).
Proof.
  destruct (securify_spellings_share_directory w)
    as (config & config2 & Hc & Hc2 & Hd & Hd2 & Hdescr).
  split.
  - rewrite !find_tool_executable_none_iff.
    split; (intros [Hnone|(c & Hsome & Hmissing)]; [congruence|]); right;
      [exists config2|exists config];
      (split; [done|]); congruence.
  - intros a b Ha Hb.
    apply find_tool_executable_found in Ha as (ca & Hca & _ & Hcwd_a & Hdescr_a & _).
    apply find_tool_executable_found in Hb as (cb & Hcb & _ & Hcwd_b & Hdescr_b & _).
    assert (ca = config) as -> by congruence.
    assert (cb = config2) as -> by congruence.
    split; [congruence|]. split; congruence.
Qed.

(** A name that is not in the registry is refused without looking at the
    filesystem; the answer names the tool in lower case and lists the
    supported ones. *)
Theorem run_security_tool_unregistered
    (w : world) (arguments : gmap string value) (raw : string) :
  arguments !! "tool_name" = Some (VStr raw) →
  lower raw ≠ "" →
  tool_configs w !! lower raw = None →
  call_tool w "run_security_tool" arguments
  = ([], Ok [ {| type := "text";
                 text := "Error: Tool '" +:+ lower raw +:+ "' not found." +:+ nl
                         +:+ "Supported tools: slither, mythril, echidna, securify2, medusa, fuzz-utils, solc-select"
                         +:+ nl
                         +:+ "Use 'check_tool_available' to find how to run a specific tool." |} ]).
Proof.
  intros Hname Hne Hnone.
  unfold call_tool. cbn [String.eqb Ascii.eqb Bool.eqb].
  unfold run_security_tool, arg_get. rewrite Hname.
  cbn [default from_option id value_lower]. rewrite bind_ret_l.
  rewrite truthy_nonempty by done. cbn [negb].
  unfold find_tool_or_alias, find_tool_executable.
  rewrite lower_idempotent, Hnone, bind_ret_l.
  destruct (String.eqb_spec (lower raw) "securify") as [Heq|_]; [|reflexivity].
  rewrite Heq in Hnone. discriminate Hnone.
Qed.

Lemma run_security_tool_unregistered_witness :
  call_tool Lab.world "run_security_tool"
    {[ "tool_name" := VStr "Foundry"; "arguments" := VStr "test" ]}
  = ([], Ok [ {| type := "text";
                 text := "Error: Tool 'foundry' not found." +:+ nl
                         +:+ "Supported tools: slither, mythril, echidna, securify2, medusa, fuzz-utils, solc-select"
                         +:+ nl
                         +:+ "Use 'check_tool_available' to find how to run a specific tool." |} ]).
Proof.
  apply (run_security_tool_unregistered Lab.world
           {[ "tool_name" := VStr "Foundry"; "arguments" := VStr "test" ]}
           "Foundry");
    [vm_compute; reflexivity | discriminate | vm_compute; reflexivity].
Defined.

(** The child of run_security_tool is the resolved command followed by the
    caller's arguments, stripped, under [DEFAULT_ENV]; it runs in the
    resolved installation directory, or in the caller's resolved working
    directory should the installation directory be gone by then. *)
Theorem run_security_tool_child_as_resolved
    (w : world) (arguments : gmap string value)
    (cmd : string) (dir : option string) (env : gmap string string) :
  In (cmd, dir, env)
     (commands_started (trace_of (call_tool w "run_security_tool" arguments))) →
  ∃ raw info s work_dir tool_cwd,
    arg_get arguments "tool_name" (VStr "") = VStr raw
    ∧ outcome_of (find_tool_executable w (lower raw)) = Ok (Some info)
    ∧ cmd = strip (command info +:+ " "
                   +:+ str (arg_get arguments "arguments" (VStr "")))
    ∧ env = DEFAULT_ENV w
    ∧ arg_get arguments "working_directory" (VStr ".") = VStr s
    ∧ expand_resolve w s = inr work_dir
    ∧ expand_resolve w (cwd info) = inr tool_cwd
    ∧ dir = Some (if fs_exists (fs w) tool_cwd then tool_cwd else work_dir).
Proof.
  unfold call_tool. cbn [String.eqb Ascii.eqb Bool.eqb].
  unfold run_security_tool.
  generalize (arg_get arguments "timeout" (VInt 300)) as t.
  generalize (arg_get arguments "working_directory" (VStr ".")) as wd.
  generalize (arg_get arguments "arguments" (VStr "")) as tool_args.
  destruct (arg_get arguments "tool_name" (VStr "")) as [| | |raw|];
    try (intros ? ? ? []).
  intros tool_args wd t.
  cbn [value_lower]. rewrite bind_ret_l.
  destruct (truthy (VStr (lower raw))); cbn [negb]; [|intros []].
  rewrite trace_bind, commands_started_app, find_tool_or_alias_outcome.
  rewrite (no_child_started _ (find_tool_or_alias_quiet w (lower raw))).
  cbn [app].
  destruct (outcome_of (find_tool_executable w (lower raw)))
    as [[info|]|e] eqn:Hfound; try (intros []).
  unfold launch_tool, path_resolve, spawn, wait_for_communicate, kill_and_reap,
    probe_exists.
  rewrite prepare_env_DEFAULT_ENV.
  destruct wd as [| | |s|]; try (intros []).
  cbn. destruct (expand_resolve w s) as [e|work_dir] eqn:Hwd; cbn;
    [intros []|].
  destruct (expand_resolve w (cwd info)) as [e|tool_cwd] eqn:Hcwd; cbn;
    [intros []|].
  destruct (path_exists (fs w) tool_cwd) as [exists_cwd|e] eqn:Hexists; cbn;
    [|intros []].
  apply path_exists_answer in Hexists as [<- _].
  assert (Hgoal :
    (strip (command info +:+ " " +:+ str tool_args),
     Some (if fs_exists (fs w) tool_cwd then tool_cwd else work_dir),
     DEFAULT_ENV w) = (cmd, dir, env) →
    ∃ raw0 info0 s0 work_dir0 tool_cwd0,
      VStr raw = VStr raw0
      ∧ outcome_of (find_tool_executable w (lower raw0)) = Ok (Some info0)
      ∧ cmd = strip (command info0 +:+ " " +:+ str tool_args)
      ∧ env = DEFAULT_ENV w
      ∧ VStr s = VStr s0
      ∧ expand_resolve w s0 = inr work_dir0
      ∧ expand_resolve w (cwd info0) = inr tool_cwd0
      ∧ dir = Some (if fs_exists (fs w) tool_cwd0 then tool_cwd0
                    else work_dir0)).
  { intros [= <- <- <-]. by exists raw, info, s, work_dir, tool_cwd. }
  destruct (create_subprocess_shell w _ _ (DEFAULT_ENV w)) as [e|child]; cbn.
  { intros [H|[]]. by apply Hgoal. }
  destruct (communicate child t); cbn; try destruct (kill child); cbn;
    intros [H|[]]; by apply Hgoal.
Qed.

Lemma run_security_tool_child_witness :
  ∃ info,
    outcome_of (find_tool_executable Lab.world "echidna") = Ok (Some info)
    ∧ "echidna-test --version" = strip (command info +:+ " " +:+ "--version").
Proof.
  destruct (run_security_tool_child_as_resolved Lab.world
              {[ "tool_name" := VStr "Echidna"; "arguments" := VStr "--version" ]}
              "echidna-test --version" (Some "/home/auditor/tools/echidna")
              (DEFAULT_ENV Lab.world))
    as (raw & info & s & work_dir & tool_cwd & Hraw & Hfound & Hcmd & _).
  - vm_compute. left. reflexivity.
  - vm_compute in Hraw. injection Hraw as <-.
    exists info. split; [exact Hfound|exact Hcmd].
Defined.

(** ** check_tool_available *)

Lemma outcome_try_except {A} (m : M A) (h : exn → M A) :
  outcome_of (try_except m h)
  = match outcome_of m with
    | Ok a => Ok a
    | Raise e => outcome_of (h e)
    end.
Proof. destruct m as [t [a|e]]; cbn; [reflexivity|]. by destruct (h e). Qed.

Lemma outcome_emit (ev : event) : outcome_of (emit ev) = Ok tt.
Proof. reflexivity. Qed.

(** A tool that [which] finds is reported at once, at the path [which]
    printed with the surrounding whitespace removed; the tools directory
    is not looked at. *)
Theorem check_tool_available_on_path
    (w : world) (arguments : gmap string value) (tool out : string) :
  arguments !! "tool_name" = Some (VStr tool) →
  tool ≠ "" →
  run_which w tool = inr (0%Z, out) →
  call_tool w "check_tool_available" arguments
  = ([EvWhich tool (DEFAULT_ENV w)],
     Ok [ {| type := "text";
             text := "Tool '" +:+ tool +:+ "' is available at: "
                     +:+ strip out |} ]).
Proof.
  intros Hname Hne Hwhich.
  unfold call_tool. cbn [String.eqb Ascii.eqb Bool.eqb].
  unfold check_tool_available, arg_get. rewrite Hname.
  cbn [default from_option id]. rewrite truthy_nonempty by done.
  cbn. by rewrite Hwhich.
Qed.

Lemma check_tool_available_on_path_witness :
  call_tool Field.outage "check_tool_available" {[ "tool_name" := VStr "forge" ]}
  = ([EvWhich "forge" (DEFAULT_ENV Field.outage)],
     Ok [ {| type := "text";
             text := "Tool 'forge' is available at: /usr/local/bin/forge" |} ]).
Proof.
  refine (eq_trans
            (check_tool_available_on_path Field.outage
               {[ "tool_name" := VStr "forge" ]} "forge"
               ("/usr/local/bin/forge" +:+ nl) _ _ _) _);
    [vm_compute; reflexivity | discriminate | reflexivity
    | vm_compute; reflexivity].
Defined.

(** A tool that [which] does not find but the resolver does is described
    with the resolver's answer: description, command, directory, and a
    usage line built from the last two. *)
Theorem check_tool_available_resolved
    (w : world) (arguments : gmap string value) (tool out : string) (rc : Z)
    (info : tool_info) :
  arguments !! "tool_name" = Some (VStr tool) →
  tool ≠ "" →
  run_which w tool = inr (rc, out) →
  rc ≠ 0%Z →
  outcome_of (find_tool_executable w tool) = Ok (Some info) →
  outcome_of (call_tool w "check_tool_available" arguments)
  = Ok [ {| type := "text";
            text := "Tool '" +:+ tool +:+ "' found:" +:+ nl
                    +:+ "  " +:+ description info +:+ nl
                    +:+ "  Command: " +:+ command info +:+ nl
                    +:+ "  Directory: " +:+ cwd info +:+ nl
                    +:+ nl +:+ "Usage example:" +:+ nl
                    +:+ "  cd " +:+ cwd info +:+ " && " +:+ command info
                    +:+ " <args>" |} ].
Proof.
  intros Hname Hne Hwhich Hrc Hfound.
  unfold call_tool. cbn [String.eqb Ascii.eqb Bool.eqb].
  unfold check_tool_available, arg_get. rewrite Hname.
  cbn [default from_option id]. rewrite truthy_nonempty by done.
  cbn [negb].
  apply Z.eqb_neq in Hrc.
  rewrite outcome_try_except, outcome_bind, outcome_emit. cbv beta iota.
  rewrite Hwhich, Hrc, outcome_bind, Hfound. reflexivity.
Qed.

Lemma check_tool_available_resolved_witness :
  outcome_of (call_tool Field.outage "check_tool_available"
                {[ "tool_name" := VStr "solc-select" ]})
  = Ok [ {| type := "text";
            text := "Tool 'solc-select' found:" +:+ nl
                    +:+ "  Solidity compiler version selector" +:+ nl
                    +:+ "  Command: /home/auditor/tools/solc-select/bin/solc-select" +:+ nl
                    +:+ "  Directory: /home/auditor/tools/solc-select" +:+ nl
                    +:+ nl +:+ "Usage example:" +:+ nl
                    +:+ "  cd /home/auditor/tools/solc-select && /home/auditor/tools/solc-select/bin/solc-select <args>" |} ].
Proof.
  refine (eq_trans
            (check_tool_available_resolved Field.outage
               {[ "tool_name" := VStr "solc-select" ]} "solc-select" "" 1
               {| command := "/home/auditor/tools/solc-select/bin/solc-select";
                  cwd := "/home/auditor/tools/solc-select";
                  description := "Solidity compiler version selector" |}
               _ _ _ _ _) _);
    [ vm_compute; reflexivity | discriminate | reflexivity | discriminate
    | vm_compute; reflexivity | vm_compute; reflexivity ].
Defined.

Lemma search_tool_dirs_no_directory
    (w : world) (tool : string) (tool_dirs : list string) :
  Forall (λ d, path_is_dir (fs w) d = Ok false) tool_dirs →
  outcome_of (search_tool_dirs w tool tool_dirs) = Ok None.
Proof.
  induction 1 as [|d rest Hd _ IH]; [reflexivity|].
  cbn [search_tool_dirs]. rewrite outcome_bind, outcome_probe_exists.
  assert (Hexists : path_exists (fs w) d = Ok (fs_exists (fs w) d)).
  { unfold path_is_dir in Hd. unfold path_exists, fs_exists.
    by destruct (fs w d). }
  rewrite Hexists, outcome_bind.
  destruct (fs_exists (fs w) d).
  - rewrite outcome_probe_is_dir, Hd. exact IH.
  - rewrite outcome_ret. exact IH.
Qed.

(** A tool found nowhere (not by [which], not by the resolver, and with
    [is_dir()] answering [False] at each of the four conventional places)
    is reported as not found, with the fixed list of directories of the
    tools root. *)
Theorem check_tool_available_not_found
    (w : world) (arguments : gmap string value) (tool out : string) (rc : Z) :
  arguments !! "tool_name" = Some (VStr tool) →
  tool ≠ "" →
  run_which w tool = inr (rc, out) →
  rc ≠ 0%Z →
  outcome_of (find_tool_executable w tool) = Ok None →
  Forall (λ d, path_is_dir (fs w) d = Ok false)
    [ TOOLS_DIR w </> tool;
      TOOLS_DIR w </> tool </> tool;
      TOOLS_DIR w </> (tool +:+ "2.0") </> tool;
      WEB3SE_LAB_DIR w </> tool ] →
  outcome_of (call_tool w "check_tool_available" arguments)
  = Ok [ {| type := "text";
            text := "Tool '" +:+ tool +:+ "' not found in PATH or ~/tools." +:+ nl
                    +:+ "Available tools in ~/tools: echidna, fuzz-utils, medusa, mythril2.0, securify2, slither, solc-select" |} ].
Proof.
  intros Hname Hne Hwhich Hrc Hfound Hdirs.
  apply search_tool_dirs_no_directory with (tool := tool) in Hdirs.
  unfold call_tool. cbn [String.eqb Ascii.eqb Bool.eqb].
  unfold check_tool_available, arg_get. rewrite Hname.
  cbn [default from_option id]. rewrite truthy_nonempty by done.
  cbn [negb].
  apply Z.eqb_neq in Hrc.
  rewrite outcome_try_except, outcome_bind, outcome_emit. cbv beta iota.
  rewrite Hwhich, Hrc, outcome_bind, Hfound. cbv beta iota.
  rewrite outcome_bind, Hdirs. reflexivity.
Qed.

(** Scenario C of the specification. *)
Lemma check_tool_available_not_found_witness :
  outcome_of (call_tool Lab.world "check_tool_available"
                {[ "tool_name" := VStr "halmos" ]})
  = Ok [ {| type := "text";
            text := "Tool 'halmos' not found in PATH or ~/tools." +:+ nl
                    +:+ "Available tools in ~/tools: echidna, fuzz-utils, medusa, mythril2.0, securify2, slither, solc-select" |} ].
Proof.
  refine (eq_trans
            (check_tool_available_not_found Lab.world
               {[ "tool_name" := VStr "halmos" ]} "halmos" "" 1
               _ _ _ _ _ _) _);
    [ vm_compute; reflexivity | discriminate | reflexivity | discriminate
    | vm_compute; reflexivity
    | repeat constructor; vm_compute; reflexivity
    | vm_compute; reflexivity ].
Defined.

(** ** Arguments that are not advertised *)

Lemma arg_get_insert_ne (arguments : gmap string value) (key other : string)
    (v dflt : value) :
  key ≠ other →
  arg_get (<[key := v]> arguments) other dflt = arg_get arguments other dflt.
Proof. intros Hne. unfold arg_get. by rewrite lookup_insert_ne. Qed.

(** A handler reads no argument beyond the properties that [list_tools]
    declares for its tool: whatever is put under any other key changes
    neither the trace nor the answer.  In particular web3_scanner_scan
    takes no [timeout] and check_tool_available no [working_directory]. *)
Theorem undeclared_arguments_are_ignored
    (w : world) (tool : Mcp.Tool) (key : string) (v : value)
    (arguments : gmap string value) :
  In tool list_tools →
  ¬ In key (map fst (Mcp.properties (Mcp.inputSchema tool))) →
  call_tool w (Mcp.name tool) (<[key := v]> arguments)
  = call_tool w (Mcp.name tool) arguments.
Proof.
  intros Htool Hkey. cbn in Htool.
  destruct Htool as [<-|[<-|[<-|[<-|[<-|[<-|[]]]]]]]; cbn in Hkey;
    unfold call_tool; cbn [Mcp.name String.eqb Ascii.eqb Bool.eqb];
    unfold execute_command, check_tool_available, run_security_tool,
      web3_scanner_scan, start_web3se_services;
    rewrite ?arg_get_insert_ne by (intros ->; apply Hkey; tauto);
    reflexivity.
Qed.

Lemma undeclared_arguments_witness :
  call_tool Lab.world "web3_scanner_scan"
    (<["timeout" := VInt 5]> {[ "repository_path" := VStr "./contracts" ]})
  = call_tool Lab.world "web3_scanner_scan"
      {[ "repository_path" := VStr "./contracts" ]}.
Proof.
  apply (undeclared_arguments_are_ignored Lab.world
           (nth 3 list_tools (Mcp.mkTool "" "" (Mcp.mkSchema "" [] None)))
           "timeout" (VInt 5)).
  - cbn. tauto.
  - cbn. intros H.
    repeat (destruct H as [H|H]; [discriminate H|]). destruct H.
Defined.

(** ** web3_scanner_scan and start_web3se_services *)

(** Without the scanner binary both operations that need it give the same
    error after the one probe that found it missing; nothing is started. *)
Theorem scanner_binary_missing
    (w : world) (arguments : gmap string value) :
  fs w (WEB3SE_LAB_DIR w </> "web3-scanner") = NoEntry →
  (truthy (arg_get arguments "repository_path" (VStr "")) = true →
     call_tool w "web3_scanner_scan" arguments
     = ([EvExists (WEB3SE_LAB_DIR w </> "web3-scanner")],
        Ok [ {| type := "text";
                text := "Error: web3-scanner not found at "
                        +:+ (WEB3SE_LAB_DIR w </> "web3-scanner") |} ]))
  ∧ call_tool w "start_web3se_services" arguments
    = ([EvExists (WEB3SE_LAB_DIR w </> "web3-scanner")],
       Ok [ {| type := "text";
               text := "Error: web3-scanner not found at "
                       +:+ (WEB3SE_LAB_DIR w </> "web3-scanner") |} ]).
Proof.
  intros Hmissing. apply path_exists_absent in Hmissing.
  unfold call_tool. cbn [String.eqb Ascii.eqb Bool.eqb].
  unfold web3_scanner_scan, start_web3se_services.
  split; [intros ->; cbn [negb]|];
    rewrite (bind_probe_exists _ _ false) by done; reflexivity.
Qed.

Lemma scanner_binary_missing_witness :
  call_tool Field.outage "start_web3se_services" {[ "background" := VBool true ]}
  = ([EvExists "/home/auditor/tools/web3se-lab/web3-scanner"],
     Ok [ {| type := "text";
             text := "Error: web3-scanner not found at /home/auditor/tools/web3se-lab/web3-scanner" |} ]).
Proof.
  refine (eq_trans
            (proj2 (scanner_binary_missing Field.outage
                      {[ "background" := VBool true ]} _)) _);
    vm_compute; reflexivity.
Defined.

(** A scan that outlives its deadline, which is always ten minutes: the
    scanner is killed; when [kill()] succeeds it is waited for and the
    answer names the command line; when [kill()] raises it is not waited
    for, and the answer is the text of the operation's [except Exception]. *)
Theorem web3_scanner_scan_timeout
    (w : world) (arguments : gmap string value)
    (repository_path output_file : string) (child : process)
    (po pe : string) :
  arguments !! "repository_path" = Some (VStr repository_path) →
  repository_path ≠ "" →
  arg_get arguments "output_file" (VStr "") = VStr output_file →
  fs_exists (fs w) (WEB3SE_LAB_DIR w </> "web3-scanner") = true →
  create_subprocess_shell w
    (spec_scan_command_line (WEB3SE_LAB_DIR w </> "web3-scanner")
       repository_path
       (truthy (arg_get arguments "with_intent" (VBool true)))
       (truthy (arg_get arguments "with_embed" (VBool true)))
       output_file)
    (Some (WEB3SE_LAB_DIR w)) (DEFAULT_ENV w) = Spawned child →
  communicate child (VInt 600) = TimedOut po pe →
  call_tool w "web3_scanner_scan" arguments
  = (([ EvExists (WEB3SE_LAB_DIR w </> "web3-scanner");
        EvSpawn
          (spec_scan_command_line (WEB3SE_LAB_DIR w </> "web3-scanner")
             repository_path
             (truthy (arg_get arguments "with_intent" (VBool true)))
             (truthy (arg_get arguments "with_embed" (VBool true)))
             output_file)
          (Some (WEB3SE_LAB_DIR w)) (DEFAULT_ENV w);
        EvCommunicate (pid child) (VInt 600) (TimedOut po pe);
        EvKill (pid child) ]
      ++ match kill child with
         | None => [EvWait (pid child)]
         | Some _ => []
         end)%list,
     Ok [ {| type := "text";
             text := match kill child with
                     | None =>
                         "Error: Scan timed out after 10 minutes" +:+ nl
                         +:+ "Command: "
                         +:+ spec_scan_command_line
                               (WEB3SE_LAB_DIR w </> "web3-scanner")
                               repository_path
                               (truthy (arg_get arguments "with_intent"
                                          (VBool true)))
                               (truthy (arg_get arguments "with_embed"
                                          (VBool true)))
                               output_file
                     | Some e =>
                         "Error running web3-scanner: " +:+ exn_msg e +:+ nl
                         +:+ "Repository: " +:+ repository_path
                     end |} ]).
Proof.
  intros Hrepo Hne Hout Hscanner Hspawn Hcomm.
  assert (Hr : arg_get arguments "repository_path" (VStr "")
               = VStr repository_path).
  { unfold arg_get. by rewrite Hrepo. }
  unfold call_tool. cbn [String.eqb Ascii.eqb Bool.eqb].
  unfold web3_scanner_scan. rewrite Hr, Hout.
  rewrite truthy_nonempty by done. cbn [negb].
  apply path_exists_found in Hscanner.
  revert Hscanner Hspawn.
  generalize (WEB3SE_LAB_DIR w </> "web3-scanner") as scanner.
  generalize (WEB3SE_LAB_DIR w) as lab.
  generalize (DEFAULT_ENV w) as env.
  generalize (arg_get arguments "with_embed" (VBool true)) as ve.
  generalize (arg_get arguments "with_intent" (VBool true)) as vi.
  intros vi ve env lab scanner Hscanner Hspawn.
  destruct (join_scan_cmd_parts scanner repository_path output_file vi ve)
    as [-> Hjoin].
  rewrite (bind_probe_exists _ _ true) by done.
  cbn [trace_of outcome_of fst snd negb]. rewrite bind_ret_l, Hjoin.
  revert Hspawn.
  generalize (spec_scan_command_line scanner repository_path (truthy vi)
                (truthy ve) output_file) as command.
  intros command Hspawn.
  unfold spawn. rewrite Hspawn. cbn -[wait_for_communicate].
  unfold wait_for_communicate, kill_and_reap. rewrite Hcomm. cbn.
  by destruct (kill child).
Qed.

Lemma web3_scanner_scan_timeout_witness :
  call_tool Lab.world "web3_scanner_scan"
    {[ "repository_path" := VStr "./contracts"; "with_embed" := VBool false ]}
  = ([ EvExists "/home/auditor/tools/web3se-lab/web3-scanner";
       EvSpawn "/home/auditor/tools/web3se-lab/web3-scanner scan ./contracts --intent"
         (Some "/home/auditor/tools/web3se-lab") (DEFAULT_ENV Lab.world);
       EvCommunicate 4244 (VInt 600) (TimedOut "analysing" "warning: slow");
       EvKill 4244; EvWait 4244 ],
     Ok [ {| type := "text";
             text := "Error: Scan timed out after 10 minutes" +:+ nl
                     +:+ "Command: /home/auditor/tools/web3se-lab/web3-scanner scan ./contracts --intent" |} ])
  ∧ outcome_of (call_tool Field.racing "web3_scanner_scan"
                  {[ "repository_path" := VStr "./contracts" ]})
    = Ok [ {| type := "text";
              text := "Error running web3-scanner: " +:+ nl
                      +:+ "Repository: ./contracts" |} ].
Proof.
  split.
  - refine (eq_trans
              (web3_scanner_scan_timeout Lab.world
                 {[ "repository_path" := VStr "./contracts";
                    "with_embed" := VBool false ]}
                 "./contracts" "" Lab.straggler "analysing" "warning: slow"
                 _ _ _ _ _ _) _);
      [ vm_compute; reflexivity | discriminate | vm_compute; reflexivity
      | vm_compute; reflexivity | vm_compute; reflexivity | reflexivity
      | vm_compute; reflexivity ].
  - refine (eq_trans
              (f_equal snd
                 (web3_scanner_scan_timeout Field.racing
                    {[ "repository_path" := VStr "./contracts" ]}
                    "./contracts" "" Field.late_finisher "" ""
                    _ _ _ _ _ _)) _);
      [ vm_compute; reflexivity | discriminate | vm_compute; reflexivity
      | vm_compute; reflexivity | vm_compute; reflexivity | reflexivity
      | vm_compute; reflexivity ].
Defined.

Lemma string_app_assoc (a b c : string) : (a +:+ b) +:+ c = a +:+ (b +:+ c).
Proof.
  induction a as [|x a IH]; [reflexivity|].
  change (String x ((a +:+ b) +:+ c) = String x (a +:+ (b +:+ c))).
  by rewrite IH.
Qed.

(** A scan that ends in time is reported with the repository, the exit
    status and the non-empty streams; the line about the saved results is
    added exactly when an output file was asked for and exists in the
    filesystem the scanner left behind.  When the look at that file raises,
    the report is lost and the answer is the text of the operation's
    [except Exception]. *)
Theorem web3_scanner_scan_completed_report
    (w : world) (arguments : gmap string value)
    (repository_path output_file : string)
    (child : process) (out err : string) (rc : Z) (after : filesystem) :
  arguments !! "repository_path" = Some (VStr repository_path) →
  repository_path ≠ "" →
  arg_get arguments "output_file" (VStr "") = VStr output_file →
  fs_exists (fs w) (WEB3SE_LAB_DIR w </> "web3-scanner") = true →
  create_subprocess_shell w
    (spec_scan_command_line (WEB3SE_LAB_DIR w </> "web3-scanner")
       repository_path
       (truthy (arg_get arguments "with_intent" (VBool true)))
       (truthy (arg_get arguments "with_embed" (VBool true)))
       output_file)
    (Some (WEB3SE_LAB_DIR w)) (DEFAULT_ENV w) = Spawned child →
  communicate child (VInt 600) = Completed out err rc after →
  outcome_of (call_tool w "web3_scanner_scan" arguments)
  = Ok [ {| type := "text";
            text := match (if String.eqb output_file "" then None
                           else fs_error after output_file) with
                    | Some e =>
                        "Error running web3-scanner: " +:+ exn_msg e +:+ nl
                        +:+ "Repository: " +:+ repository_path
                    | None =>
                        "Web3 Scanner Results:" +:+ nl
                        +:+ "Repository: " +:+ repository_path +:+ nl
                        +:+ "Exit Code: " +:+ pretty rc +:+ nl
                        +:+ "==================================================" +:+ nl
                        +:+ (if String.eqb out "" then ""
                             else "STDOUT:" +:+ nl +:+ out +:+ nl)
                        +:+ (if String.eqb err "" then ""
                             else "STDERR:" +:+ nl +:+ err +:+ nl)
                        +:+ (if negb (String.eqb output_file "")
                                && fs_exists after output_file
                             then nl +:+ "✅ Results saved to: "
                                  +:+ output_file +:+ nl
                             else "")
                    end |} ].
Proof.
  intros Hrepo Hne Hout Hscanner Hspawn Hcomm.
  assert (Hr : arg_get arguments "repository_path" (VStr "")
               = VStr repository_path).
  { unfold arg_get. by rewrite Hrepo. }
  unfold call_tool. cbn [String.eqb Ascii.eqb Bool.eqb].
  unfold web3_scanner_scan. rewrite Hr, Hout.
  rewrite truthy_nonempty by done. cbn [negb].
  apply path_exists_found in Hscanner.
  revert Hscanner Hspawn.
  generalize (WEB3SE_LAB_DIR w </> "web3-scanner") as scanner.
  generalize (WEB3SE_LAB_DIR w) as lab.
  generalize (DEFAULT_ENV w) as env.
  generalize (arg_get arguments "with_embed" (VBool true)) as ve.
  generalize (arg_get arguments "with_intent" (VBool true)) as vi.
  intros vi ve env lab scanner Hscanner Hspawn.
  destruct (join_scan_cmd_parts scanner repository_path output_file vi ve)
    as [-> Hjoin].
  rewrite (bind_probe_exists _ _ true) by done.
  cbn [trace_of outcome_of fst snd negb]. rewrite bind_ret_l, Hjoin.
  revert Hspawn.
  generalize (spec_scan_command_line scanner repository_path (truthy vi)
                (truthy ve) output_file) as command.
  intros command Hspawn.
  unfold spawn. rewrite Hspawn. cbn -[wait_for_communicate].
  unfold wait_for_communicate, path_of, probe_exists, path_exists, fs_error,
    fs_exists.
  rewrite Hcomm. cbn.
  unfold format_streams. cbn [truthy].
  destruct (String.eqb output_file ""); cbn;
    destruct (String.eqb out ""), (String.eqb err "");
    cbn; try destruct (after output_file); cbn;
    rewrite ?string_app_assoc; reflexivity.
Qed.

Lemma web3_scanner_scan_completed_witness :
  outcome_of (call_tool Field.scanning "web3_scanner_scan"
                {[ "repository_path" := VStr "./contracts";
                   "output_file" := VStr "report.json" ]})
  = Ok [ {| type := "text";
            text := "Web3 Scanner Results:" +:+ nl
                    +:+ "Repository: ./contracts" +:+ nl
                    +:+ "Exit Code: 3" +:+ nl
                    +:+ "==================================================" +:+ nl
                    +:+ "STDOUT:" +:+ nl +:+ "2 findings" +:+ nl
                    +:+ nl +:+ "✅ Results saved to: report.json" +:+ nl |} ].
Proof.
  refine (eq_trans
            (web3_scanner_scan_completed_report Field.scanning
               {[ "repository_path" := VStr "./contracts";
                  "output_file" := VStr "report.json" ]}
               "./contracts" "report.json" Field.scanner_run
               "2 findings" "" 3 Field.disk_after_scan _ _ _ _ _ _) _);
    [ vm_compute; reflexivity | discriminate | vm_compute; reflexivity
    | vm_compute; reflexivity | reflexivity | reflexivity
    | vm_compute; reflexivity ].
Defined.

(** Unless [background] is set to something true, start_web3se_services
    starts nothing: it looks for the scanner binary and answers with
    instructions for starting the services by hand. *)
Theorem start_web3se_services_foreground
    (w : world) (arguments : gmap string value) :
  truthy (arg_get arguments "background" (VBool false)) = false →
  fs_exists (fs w) (WEB3SE_LAB_DIR w </> "web3-scanner") = true →
  call_tool w "start_web3se_services" arguments
  = ([EvExists (WEB3SE_LAB_DIR w </> "web3-scanner")],
     Ok [ {| type := "text";
             text := "To start web3se-lab services, run:" +:+ nl
                     +:+ "cd " +:+ WEB3SE_LAB_DIR w +:+ " && ./web3-scanner start"
                     +:+ nl +:+ nl
                     +:+ "Or use: bash-server.execute_command with command: "
                     +:+ "'cd " +:+ WEB3SE_LAB_DIR w
                     +:+ " && ./web3-scanner start'"
                     +:+ nl +:+ nl
                     +:+ "Services will run on:" +:+ nl
                     +:+ "- SmartBERT API: http://localhost:9900" +:+ nl
                     +:+ "- web3-sekit API: http://localhost:8081" |} ]).
Proof.
  intros Hbg Hscanner.
  unfold call_tool. cbn [String.eqb Ascii.eqb Bool.eqb].
  unfold start_web3se_services.
  rewrite (bind_probe_exists _ _ true) by (by apply path_exists_found).
  cbn [trace_of outcome_of fst snd negb]. rewrite Hbg. reflexivity.
Qed.

Lemma start_web3se_services_foreground_witness :
  trace_of (call_tool Lab.world "start_web3se_services" ∅)
  = [EvExists "/home/auditor/tools/web3se-lab/web3-scanner"].
Proof.
  refine (eq_trans
            (f_equal fst
               (start_web3se_services_foreground Lab.world ∅ _ _)) _);
    vm_compute; reflexivity.
Defined.

Lemma check_web3se_status_returns (w : world) :
  returns (check_web3se_status w).
Proof.
  unfold check_web3se_status. apply returns_try_except.
  intros e. apply returns_text_result.
Qed.

(** In the background mode the services are started through one shell
    line, without a working directory of its own; the shell is waited for,
    five seconds pass, and the answer is the status report that
    check_web3se_status gives at that moment. *)
Theorem start_web3se_services_background
    (w : world) (arguments : gmap string value) (child : process) :
  truthy (arg_get arguments "background" (VBool false)) = true →
  fs_exists (fs w) (WEB3SE_LAB_DIR w </> "web3-scanner") = true →
  create_subprocess_shell w
    ("cd " +:+ WEB3SE_LAB_DIR w +:+ " && nohup "
     +:+ (WEB3SE_LAB_DIR w </> "web3-scanner") +:+ " start > /dev/null 2>&1 &")
    None (DEFAULT_ENV w) = Spawned child →
  call_tool w "start_web3se_services" arguments
  = (([ EvExists (WEB3SE_LAB_DIR w </> "web3-scanner");
        EvSpawn ("cd " +:+ WEB3SE_LAB_DIR w +:+ " && nohup "
                 +:+ (WEB3SE_LAB_DIR w </> "web3-scanner")
                 +:+ " start > /dev/null 2>&1 &")
          None (DEFAULT_ENV w);
        EvWait (pid child);
        EvSleep 5 ]
      ++ trace_of (call_tool w "check_web3se_status" ∅))%list,
     outcome_of (call_tool w "check_web3se_status" ∅)).
Proof.
  intros Hbg Hscanner Hspawn.
  unfold call_tool. cbn [String.eqb Ascii.eqb Bool.eqb].
  unfold start_web3se_services.
  rewrite (bind_probe_exists _ _ true) by (by apply path_exists_found).
  cbn [trace_of outcome_of fst snd negb]. rewrite Hbg.
  unfold spawn. rewrite Hspawn.
  destruct (check_web3se_status_returns w) as [r Hr].
  destruct (check_web3se_status w) as [t o]. cbn in Hr. subst o. reflexivity.
Qed.

Lemma start_web3se_services_background_witness :
  outcome_of (call_tool Lab.world "start_web3se_services"
                {[ "background" := VBool true ]})
  = outcome_of (call_tool Lab.world "check_web3se_status" ∅).
Proof.
  refine (f_equal snd
            (start_web3se_services_background Lab.world
               {[ "background" := VBool true ]} Lab.talker _ _ _));
    vm_compute; reflexivity.
Defined.

(** ** The resolver once more *)

Lemma first_executable_probe_count (w : world) (paths : list string) :
  (List.length (trace_of (first_executable w paths))
   ≤ 2 * List.length paths)%nat.
Proof.
  induction paths as [|p rest IH]; [cbn; lia|].
  cbn [first_executable]. unfold probe_exists, probe_access.
  destruct (path_exists (fs w) p) as [[]|e]; cbn.
  - destruct (fs_access_x (fs w) p); cbn.
    + lia.
    + destruct (first_executable w rest) as [t r]. cbn in *. lia.
  - destruct (first_executable w rest) as [t r]. cbn in *. lia.
  - lia.
Qed.

Lemma trace_length_bind {A B} (a b : nat) {n : nat} (m : M A) (k : A → M B) :
  (List.length (trace_of m) ≤ a)%nat →
  (a + b ≤ n)%nat →
  (∀ x, (List.length (trace_of (k x)) ≤ b)%nat) →
  (List.length (trace_of (bind m k)) ≤ n)%nat.
Proof.
  intros Hm Hn Hk. rewrite trace_bind, length_app.
  destruct (outcome_of m) as [x|e]; [specialize (Hk x)|]; cbn; lia.
Qed.

(** The resolver only reads: every event is an existence or permission
    probe; a name that is not registered costs no probe at all, and no
    lookup makes more than eleven. *)
Theorem find_tool_executable_read_only (w : world) (tool_name : string) :
  Forall probe_only (trace_of (find_tool_executable w tool_name))
  ∧ (List.length (trace_of (find_tool_executable w tool_name)) ≤ 11)%nat
  ∧ (tool_configs w !! lower tool_name = None →
       trace_of (find_tool_executable w tool_name) = []).
Proof.
  split; [apply find_tool_executable_probes|]. split.
  - unfold find_tool_executable. cbv zeta.
    destruct (tool_configs w !! lower tool_name) as [config|]; [|cbn; lia].
    fold (candidates config tool_name).
    pose proof (first_executable_probe_count w (candidates config tool_name))
      as Hcount.
    change (List.length (candidates config tool_name)) with 4%nat in Hcount.
    assert (Hdirect : ∀ (k1 : string → option tool_info)
                        (k2 : option tool_info),
      (List.length
         (trace_of
            (found <- first_executable w (candidates config tool_name) ;;
             match found with
             | Some path => ret (k1 path)
             | None => ret k2
             end)) ≤ 8)%nat).
    { intros k1 k2. apply (trace_length_bind 8 0); [lia|lia|].
      intros [path|]; cbn; lia. }
    apply (trace_length_bind 1 10); [cbn; lia|lia|]. intros d.
    destruct (negb d); [cbn; lia|].
    destruct (contains "python3" (cfg_command config));
      [|etrans; [apply Hdirect|lia]].
    destruct (tail (split (cfg_command config))) as [|part0 parts];
      [etrans; [apply Hdirect|lia]|].
    apply (trace_length_bind 1 9); [cbn; lia|lia|]. intros e.
    apply (trace_length_bind 1 8); [destruct e; cbn; lia|lia|]. intros ok.
    destruct ok; [cbn; lia|apply Hdirect].
  - intros Hnone. unfold find_tool_executable. by rewrite Hnone.
Qed.

(** What the resolver hands out can be traced back: the directory and the
    description are those of the registry entry, and the command is the
    entry's template or else one of the four candidate paths, one that
    exists and carries the execute permission. *)
Theorem find_tool_executable_result_sound
    (w : world) (tool_name : string) (info : tool_info) :
  outcome_of (find_tool_executable w tool_name) = Ok (Some info) →
  ∃ config,
    tool_configs w !! lower tool_name = Some config
    ∧ fs_exists (fs w) (cfg_dir config) = true
    ∧ cwd info = cfg_dir config
    ∧ description info = cfg_description config
    ∧ (command info = cfg_command config
       ∨ (In (command info) (candidates config tool_name)
          ∧ fs_exists (fs w) (command info) = true
          ∧ fs_access_x (fs w) (command info) = true)).
Proof. apply find_tool_executable_found. Qed.

Lemma find_tool_executable_result_witness :
  ∃ config,
    tool_configs Field.outage !! "solc-select" = Some config
    ∧ fs_access_x (fs Field.outage)
        "/home/auditor/tools/solc-select/bin/solc-select" = true.
Proof.
  destruct (find_tool_executable_result_sound Field.outage "solc-select"
              {| command := "/home/auditor/tools/solc-select/bin/solc-select";
                 cwd := "/home/auditor/tools/solc-select";
                 description := "Solidity compiler version selector" |})
    as (config & Hconfig & _ & _ & _ & Hcommand).
  - vm_compute. reflexivity.
  - exists config. split; [exact Hconfig|].
    destruct Hcommand as [Htemplate|(_ & _ & Hacc)]; [|exact Hacc].
    vm_compute. reflexivity.
Defined.

(** The report of a finished command is one text block. *)
Lemma call_tool_one_text_witness :
  single_text
    [ {| type := "text";
         text := "Command: echo hello" +:+ nl
                 +:+ "Working Directory: /srv/audit" +:+ nl
                 +:+ "Exit Code: 0" +:+ nl
                 +:+ "==================================================" +:+ nl
                 +:+ "STDOUT:" +:+ nl +:+ "hello" +:+ nl |} ].
Proof.
  apply (call_tool_returns_one_text_block Lab.world "execute_command"
           {[ "command" := VStr "echo hello" ]}).
  vm_compute. reflexivity.
Defined.

(** Where securify2 is checked out, both spellings are found there. *)
Lemma securify_alias_witness :
  ∃ a b,
    outcome_of (find_tool_executable Field.outage "securify") = Ok (Some a)
    ∧ outcome_of (find_tool_executable Field.outage "securify2") = Ok (Some b)
    ∧ cwd a = "/home/auditor/tools/securify2"
    ∧ cwd b = cwd a.
Proof.
  destruct (securify_alias_same_installation Field.outage) as [_ Hsame].
  eexists _, _. split; [vm_compute; reflexivity|].
  split; [vm_compute; reflexivity|].
  edestruct Hsame as (Ha & Hb & _);
    [vm_compute; reflexivity | vm_compute; reflexivity |].
  split; [exact Ha|exact Hb].
Defined.
